(** * i.wv2.toar: WorldView-2 counts to top-of-atmosphere radiance and reflectance

    A shallow embedding of [i.wv2.toar.py] and the properties of its
    specification.

    Conventions of the embedding.
    - A Python [float] is modelled by the real number it denotes and float
      arithmetic by exact real arithmetic ([R] of the Standard Library); the
      one place where binary64 rounding is looked at directly uses Rocq's
      primitive floats.
    - Python exceptions are values of [exn]; a call returns [Ok v] or
      [Raise e], together with the requests it sent to GRASS before that
      ([event]).
    - Library routines the script calls ([datetime.strptime], [float],
      ElementTree's [find], [r.mapcalc]) are modelled next to their call
      sites, each with a comment saying what the model covers. *)

From Stdlib Require Import ZArith List String Ascii Bool Reals Lra Lia Floats.
From stdpp Require Import base option gmap strings.
Import ListNotations.

Set Warnings "-inexact-float,-register-all".

#[local] Open Scope Z_scope.

(** ** Python outcomes *)

Module Py.

(** The exceptions the script can meet.  [SystemExit] is what [sys.exit]
    raises; every other one, when nothing catches it, ends the process with a
    traceback. *)
Inductive exn : Type :=
| NameError (name : string)
| KeyError (key : string)
| IndexError
| AttributeError
| TypeError
| ValueError
| IOError
| ParseError
| SystemExit (code : Z).

Inductive result (A : Type) : Type :=
| Ok (a : A)
| Raise (e : exn).
Arguments Ok {A} a.
Arguments Raise {A} e.

Definition rbind {A B : Type} (m : result A) (k : A -> result B) : result B :=
  match m with
  | Ok a => k a
  | Raise e => Raise e
  end.

Definition of_option {A : Type} (e : exn) (o : option A) : result A :=
  match o with
  | Some a => Ok a
  | None => Raise e
  end.

(** A handled failure is an exit through [sys.exit]; a crash is any other
    exception that reaches the top of the script. *)
Definition is_exit {A : Type} (r : result A) : bool :=
  match r with
  | Raise (SystemExit _) => true
  | _ => false
  end.

Definition is_crash {A : Type} (r : result A) : bool :=
  match r with
  | Ok _ => false
  | Raise (SystemExit _) => false
  | Raise _ => true
  end.

End Py.
Import Py.

Declare Scope py_scope.
Delimit Scope py_scope with py.
Notation "x <- m ;; k" := (rbind m (fun x => k))
  (at level 100, m at next level, right associativity) : py_scope.

(** ** [datetime.strptime(date, "%Y-%m-%dT%H:%M:%S.%fZ")] *)

Module Strptime.

Record datetime : Type := mk_datetime {
  year : Z;
  month : Z;
  day : Z;
  hour : Z;
  minute : Z;
  second : Z;
  microsecond : Z
}.

Definition is_digit (c : ascii) : bool :=
  let n := nat_of_ascii c in (48 <=? n)%nat && (n <=? 57)%nat.

Fixpoint span_digits (s : string) : string * string :=
  match s with
  | String c r =>
      if is_digit c
      then let (d, t) := span_digits r in (String c d, t)
      else (EmptyString, s)
  | EmptyString => (EmptyString, EmptyString)
  end.

Fixpoint int_of_digits (acc : Z) (s : string) : Z :=
  match s with
  | String c r => int_of_digits (10 * acc + (Z.of_nat (nat_of_ascii c) - 48)) r
  | EmptyString => acc
  end.

(** A directive whose regular expression is a run of [lo_len] to [hi_len]
    digits with a value in [lo .. hi].  Every directive of the format is
    followed by a literal that is not a digit, so the run the expression
    matches is the whole run of digits at that place.  The digits are the
    ASCII ones. *)
Definition digits_field (lo_len hi_len : nat) (lo hi : Z) (s : string)
  : option (Z * string) :=
  let (d, rest) := span_digits s in
  let v := int_of_digits 0 d in
  if (lo_len <=? String.length d)%nat && (String.length d <=? hi_len)%nat
     && (lo <=? v) && (v <=? hi)
  then Some (v, rest) else None.

(** [%d] is [3[0-1]|[1-2]\d|0[1-9]|[1-9]| [1-9]]: a blank may stand for the
    leading zero. *)
Definition day_field (s : string) : option (Z * string) :=
  match s with
  | String " "%char r =>
      match r with
      | String c t =>
          if is_digit c && negb (Ascii.eqb c "0"%char)
          then Some (Z.of_nat (nat_of_ascii c) - 48, t) else None
      | EmptyString => None
      end
  | _ => digits_field 1 2 1 31 s
  end.

(** [%f] is one to six digits, padded with zeros on the right. *)
Definition fraction_field (s : string) : option (Z * string) :=
  let (d, rest) := span_digits s in
  let n := String.length d in
  if (1 <=? n)%nat && (n <=? 6)%nat
  then Some (int_of_digits 0 d * 10 ^ Z.of_nat (6 - n), rest) else None.

(** A literal of the format; the expression is compiled with IGNORECASE. *)
Definition literal (lower upper : ascii) (s : string) : option string :=
  match s with
  | String c r => if Ascii.eqb c lower || Ascii.eqb c upper then Some r else None
  | EmptyString => None
  end.

Definition is_leap (y : Z) : bool :=
  (y mod 4 =? 0) && (negb (y mod 100 =? 0) || (y mod 400 =? 0)).

Definition days_in_month (y m : Z) : Z :=
  if m =? 2 then (if is_leap y then 29 else 28)
  else if (m =? 4) || (m =? 6) || (m =? 9) || (m =? 11) then 30
  else 31.

(** The checks of the [datetime] constructor on what the expression matched. *)
Definition valid (t : datetime) : bool :=
  (1 <=? year t) && (year t <=? 9999)
  && (1 <=? month t) && (month t <=? 12)
  && (1 <=? day t) && (day t <=? days_in_month (year t) (month t))
  && (0 <=? hour t) && (hour t <=? 23)
  && (0 <=? minute t) && (minute t <=? 59)
  && (0 <=? second t) && (second t <=? 59)
  && (0 <=? microsecond t) && (microsecond t <=? 999999).

Definition match_format (s : string) : option datetime :=
  '(fY, s) ← digits_field 4 4 0 9999 s;
  s ← literal "-" "-" s;
  '(fm, s) ← digits_field 1 2 1 12 s;
  s ← literal "-" "-" s;
  '(fd, s) ← day_field s;
  s ← literal "t" "T" s;
  '(fH, s) ← digits_field 1 2 0 23 s;
  s ← literal ":" ":" s;
  '(fM, s) ← digits_field 1 2 0 59 s;
  s ← literal ":" ":" s;
  '(fS, s) ← digits_field 1 2 0 61 s;
  s ← literal "." "." s;
  '(ff, s) ← fraction_field s;
  s ← literal "z" "Z" s;
  match s with
  | EmptyString => Some (mk_datetime fY fm fd fH fM fS ff)
  | _ => None
  end.

(** [date] is the [.text] of an element: a string, or [None].  [strptime]
    raises TypeError on [None] and ValueError on a string that does not match
    the format or names no instant. *)
Definition strptime (date : option string) : result datetime :=
  match date with
  | None => Raise TypeError
  | Some s =>
      match match_format s with
      | Some t => if valid t then Ok t else Raise ValueError
      | None => Raise ValueError
      end
  end.

End Strptime.
Import Strptime.

(** ** [EarthSunDistance] *)

#[local] Open Scope R_scope.

(** [int(x)] on a float: truncation toward zero. *)
Definition py_int (x : R) : Z :=
  if Rle_dec 0 x then Zfloor x else Zceil x.

(** [math.radians]. *)
Definition radians (x : R) : R := x * (PI / 180).

(** Lines 91-96: the month and year the rest of the function works with. *)
Definition adjusted (acqTime : datetime) : Z * Z :=
  if (month acqTime =? 1)%Z || (month acqTime =? 2)%Z
  then ((month acqTime + 12)%Z, (year acqTime - 1)%Z)
  else (month acqTime, year acqTime).

(** Lines 98-99. *)
Definition fractional_hour (acqTime : datetime) : R :=
  let secondsMicro := IZR (second acqTime) + IZR (microsecond acqTime) / 1000000 in
  IZR (hour acqTime) + IZR (minute acqTime) / 60 + secondsMicro / 3600.

(** Lines 100-103, for the month and year of [adjusted].  [int(year / 100)]
    is the truncated quotient (under Python 2 the quotient of two ints is
    already the floor; the two agree here, see [int_quotient_floor]). *)
Definition julian_day (month year : Z) (acqTime : datetime) : R :=
  let UT := fractional_hour acqTime in
  let A := py_int (IZR year / 100) in
  let B := (2 - A + py_int (IZR A / 4))%Z in
  IZR (py_int (365.25 * IZR (year + 4716))
       + py_int (30.6001 * IZR (month + 1))
       + day acqTime)
  + UT / 24 + IZR B - 1524.5.

(** Lines 104-107. *)
Definition distance_of_julian_day (JD : R) : R :=
  let D := JD - 2451545 in
  let g := radians (357.529 + 0.98560028 * D) in
  1.00014 - 0.01671 * cos g - 0.00014 * cos (2 * g).

Definition EarthSunDistance (date : option string) : result R :=
  (acqTime <- strptime date ;;
   let '(month, year) := adjusted acqTime in
   Ok (distance_of_julian_day (julian_day month year acqTime)))%py.

(** ** Values passed to GRASS, and the requests sent to it *)

(** [rastItems] and the keyword arguments of the GRASS calls hold map names
    and floats. *)
Inductive pyval : Type :=
| VStr (s : string)
| VFloat (x : R).

Definition kwargs : Type := list (string * pyval).

Fixpoint keyword (name : string) (kw : kwargs) : option pyval :=
  match kw with
  | [] => None
  | (k, v) :: rest => if String.eqb k name then Some v else keyword name rest
  end.

Module Mapcalc.

(** The right-hand sides of the two [calc] templates, as [r.mapcalc] parses
    them: [*] and [/] associate to the left and [^] binds tighter.  [Var n]
    is the placeholder [$n]. *)
Inductive expr : Type :=
| Var (name : string)
| Mul (a b : expr)
| Div (a b : expr)
| Pow (a : expr) (n : nat)
| Cos (a : expr).

(** [$target = rhs]. *)
Record statement : Type := mk_statement {
  target : string;
  rhs : expr
}.

(** The arithmetic of the raster engine on cell values of type [T]. *)
Record arith (T : Type) : Type := mk_arith {
  mul : T -> T -> T;
  div : T -> T -> T;
  power : T -> nat -> T;
  cosd : T -> T
}.
Arguments mul {T} _ _ _.
Arguments div {T} _ _ _.
Arguments power {T} _ _ _.
Arguments cosd {T} _ _.

Fixpoint eval {T : Type} (ops : arith T) (env : string -> option T) (e : expr)
  : option T :=
  match e with
  | Var name => env name
  | Mul a b => x ← eval ops env a; y ← eval ops env b; Some (mul ops x y)
  | Div a b => x ← eval ops env a; y ← eval ops env b; Some (div ops x y)
  | Pow a n => x ← eval ops env a; Some (power ops x n)
  | Cos a => x ← eval ops env a; Some (cosd ops x)
  end.

(** Exact arithmetic; the engine's [cos] takes its argument in degrees. *)
Definition real_arith : arith R :=
  {| mul := Rmult; div := Rdiv; power := pow; cosd := fun x => cos (radians x) |}.

(** binary64 arithmetic.  Primitive floats have no power and no cosine, so
    the engine's are parameters. *)
Definition binary64_arith (powf : float -> nat -> float) (cosf : float -> float)
  : arith float :=
  {| mul := PrimFloat.mul; div := PrimFloat.div; power := powf; cosd := cosf |}.

(** What a placeholder stands for once [string.Template] has substituted the
    keyword arguments: a float is a constant, a string is the name of a
    raster and stands for its value at the cell; a placeholder without a
    keyword argument makes the substitution fail. *)
Definition placeholder (kw : kwargs) (cell : string -> R) (name : string)
  : option R :=
  match keyword name kw with
  | Some (VFloat x) => Some x
  | Some (VStr m) => Some (cell m)
  | None => None
  end.

(** The raster written and its value at a cell where the rasters read have
    the values [cell]. *)
Definition cell_value (calc : statement) (kw : kwargs) (cell : string -> R)
  : option (string * R) :=
  match keyword (target calc) kw with
  | Some (VStr out) =>
      v ← eval real_arith (placeholder kw cell) (rhs calc); Some (out, v)
  | _ => None
  end.

End Mapcalc.

(** The calls into [grass.script], in the order they are made. *)
Inductive event : Type :=
| message (text : string) (args : list pyval)
| use_temp_region
| run_command (prog : string) (kw : kwargs)
| mapcalc (calc : Mapcalc.statement) (kw : kwargs).

Definition is_mapcalc (ev : event) : bool :=
  match ev with
  | mapcalc _ _ => true
  | _ => false
  end.

(** A run: the GRASS calls made, and how it ended. *)
Definition M (A : Type) : Type := (list event * result A)%type.

Definition lift {A : Type} (r : result A) : M A := ([], r).

Definition emit (ev : event) : M unit := ([ev], Ok tt).

Definition bind {A B : Type} (m : M A) (k : A -> M B) : M B :=
  match m with
  | (t, Ok a) => let (t', r) := k a in (t ++ t', r)
  | (t, Raise e) => (t, Raise e)
  end.

(** [try: body  except: handler] with a bare [except]. *)
Definition try_except {A : Type} (body handler : M A) : M A :=
  match body with
  | (t, Raise _) => let (t', r) := handler in (t ++ t', r)
  | other => other
  end.

Definition sys_exit {A : Type} (code : Z) : M A := ([], Raise (SystemExit code)).

Declare Scope grass_scope.
Delimit Scope grass_scope with grass.
Notation "x <- m ;; k" := (bind m (fun x => k))
  (at level 100, m at next level, right associativity) : grass_scope.
Notation "m ;;; k" := (bind m (fun _ => k))
  (at level 100, right associativity) : grass_scope.

(** ** The metadata document *)

Module ElementTree.

Inductive element : Type :=
| Element (tag : string) (text : option string) (children : list element).

Definition tag_of (e : element) : string :=
  match e with Element t _ _ => t end.

(** [.text]: the text before the first child, [None] when there is none. *)
Definition text_of (e : element) : option string :=
  match e with Element _ x _ => x end.

Definition children_of (e : element) : list element :=
  match e with Element _ _ c => c end.

(** The steps of a path: the pieces between slashes. *)
Fixpoint steps (piece : string) (path : string) : list string :=
  match path with
  | EmptyString => [piece]
  | String c rest =>
      if Ascii.eqb c "/"%char then piece :: steps EmptyString rest
      else steps (piece +:+ String c EmptyString) rest
  end.

(** One step of a path: the children with that tag, of every node selected
    so far, in document order. *)
Definition select (tag : string) (nodes : list element) : list element :=
  flat_map (fun e => List.filter (fun c => String.eqb (tag_of c) tag) (children_of e))
           nodes.

(** [root.find(path)] for a path whose steps are element names, which is
    what the script's three-step paths are for the nine band codes: the
    first element the path selects, or [None]. *)
Definition find (root : element) (path : string) : option element :=
  head (fold_left (fun nodes tag => select tag nodes) (steps EmptyString path) [root]).

(** A file as [etree.parse] sees it. *)
Inductive file : Type :=
| NotWellFormed
| Document (root : element).

(** The files that can be opened, by path. *)
Definition filesystem : Type := string -> option file.

End ElementTree.
Import ElementTree.

(** ** [float(text)] *)

Module Float.

Definition is_space (c : ascii) : bool :=
  let n := nat_of_ascii c in
  (n =? 32)%nat || ((9 <=? n)%nat && (n <=? 13)%nat).

Fixpoint lstrip (s : string) : string :=
  match s with
  | String c r => if is_space c then lstrip r else s
  | EmptyString => EmptyString
  end.

Fixpoint rstrip (s : string) : string :=
  match s with
  | String c r =>
      match rstrip r with
      | EmptyString => if is_space c then EmptyString else String c EmptyString
      | r' => String c r'
      end
  | EmptyString => EmptyString
  end.

(** An optional sign: whether it is a minus, and what follows. *)
Definition sign (s : string) : bool * string :=
  match s with
  | String "-"%char r => (true, r)
  | String "+"%char r => (false, r)
  | _ => (false, s)
  end.

Definition signed (neg : bool) (v : Z) : Z := if neg then (- v)%Z else v.

(** The exponent part: absent, or [e] or [E], an optional sign and digits up
    to the end of the text. *)
Definition exponent (s : string) : option Z :=
  match s with
  | EmptyString => Some 0%Z
  | String c r =>
      if Ascii.eqb c "e"%char || Ascii.eqb c "E"%char then
        let (neg, r) := sign r in
        let (d, r) := span_digits r in
        match d, r with
        | String _ _, EmptyString => Some (signed neg (int_of_digits 0 d))
        | _, _ => None
        end
      else None
  end.

(** [m * 10^k]. *)
Definition scale10 (m k : Z) : R :=
  if (0 <=? k)%Z then IZR (m * 10 ^ k) else IZR m / IZR (10 ^ (- k)).

(** A decimal literal: sign, digits with an optional point (at least one
    digit), optional exponent. *)
Definition decimal (s : string) : option R :=
  let (neg, s) := sign s in
  let (ip, s) := span_digits s in
  let (fp, s) :=
    match s with
    | String "."%char r => span_digits r
    | _ => (EmptyString, s)
    end in
  if (1 <=? String.length ip + String.length fp)%nat then
    e ← exponent s;
    Some (scale10 (signed neg (int_of_digits 0 (ip +:+ fp)))
                  (e - Z.of_nat (String.length fp)))
  else None.

(** [float(x)] for [x] the [.text] of an element: TypeError on [None],
    ValueError on a string that is no number.  The model reads decimal
    literals between optional blanks; the spellings of infinities and NaN,
    which denote no real number, are outside it. *)
Definition float (x : option string) : result R :=
  match x with
  | None => Raise TypeError
  | Some s => of_option ValueError (decimal (rstrip (lstrip s)))
  end.

End Float.

(** ** [ExtractVariablesFromMetadata] *)

#[local] Open Scope grass_scope.

(** WV-2 Band-Averaged Solar Spectral Irradiance Table (lines 122-130). *)
Definition SSI : gmap string R :=
  <["BAND_P" := 1580.8140]> (
  <["BAND_C" := 1758.2229]> (
  <["BAND_B" := 1974.2416]> (
  <["BAND_G" := 1856.4104]> (
  <["BAND_Y" := 1738.4791]> (
  <["BAND_R" := 1559.4555]> (
  <["BAND_RE" := 1342.0695]> (
  <["BAND_N" := 1069.7302]> (
  <["BAND_N2" := 861.2866]> ∅)))))))).

(** [d[key]] on a dict. *)
Definition subscript {V : Type} (d : gmap string V) (key : string) : result V :=
  of_option (KeyError key) (d !! key).

(** [root.find(path).text]: AttributeError when the path selects nothing. *)
Definition find_text (root : element) (path : string) : result (option string) :=
  match find root path with
  | Some e => Ok (text_of e)
  | None => Raise AttributeError
  end.

Definition could_not_find : string :=
  "Error: Could not find required variables in the                           metadata file.".

(** Lines 115-133, the body of the [try]. *)
Definition extract_body (root : element) (band : string) : result (list pyval) :=
  (absCalFactor <- find_text root ("IMD/" +:+ band +:+ "/ABSCALFACTOR") ;;
   effectiveBandWidth <- find_text root ("IMD/" +:+ band +:+ "/EFFECTIVEBANDWIDTH") ;;
   sunElevation <- find_text root "IMD/IMAGE/MEANSUNEL" ;;
   acqTime <- find_text root "IMD/MAP_PROJECTED_PRODUCT/EARLIESTACQTIME" ;;
   earthSunDist <- EarthSunDistance acqTime ;;
   a <- Float.float absCalFactor ;;
   el <- Float.float sunElevation ;;
   irradiance <- subscript SSI band ;;
   w <- Float.float effectiveBandWidth ;;
   Ok [VFloat a; VFloat (90 - el); VFloat earthSunDist; VFloat irradiance; VFloat w])%py.

Definition ExtractVariablesFromMetadata
    (fs : filesystem) (metadataFilePath band : string) : M (list pyval) :=
  metadataFile <- lift (of_option IOError (fs metadataFilePath)) ;;
  root <- lift (match metadataFile with
                | Document root => Ok root
                | NotWellFormed => Raise ParseError
                end) ;;
  try_except
    (lift (extract_body root band))
    (emit (message could_not_find []) ;;; sys_exit 1).

(** ** [CalculateTOAR] *)

Import Mapcalc.

(** ["$output = ($absCal * $input_rast) / $efb"] *)
Definition calc_radiance : statement :=
  {| target := "output";
     rhs := Div (Mul (Var "absCal") (Var "input_rast")) (Var "efb") |}.

(** ["$output = ((($absCal * $input_rast) / $efb) * $esd^2 * $pi) / ($eSun * cos($theta))"] *)
Definition calc_reflectance : statement :=
  {| target := "output";
     rhs := Div (Mul (Mul (Div (Mul (Var "absCal") (Var "input_rast")) (Var "efb"))
                          (Pow (Var "esd") 2))
                     (Var "pi"))
                (Mul (Var "eSun") (Cos (Var "theta"))) |}.

(** [rastItems[i]]. *)
Definition item (rastItems : list pyval) (i : nat) : M pyval :=
  lift (of_option IndexError (nth_error rastItems i)).

Definition CalculateTOAR (rastItems : list pyval) (output : string) (radiance : bool)
  : M unit :=
  raster <- item rastItems 0 ;;
  absCalFactor <- item rastItems 1 ;;
  theta <- item rastItems 2 ;;
  earthSunDist <- item rastItems 3 ;;
  eSun <- item rastItems 4 ;;
  effectiveBandwidth <- item rastItems 5 ;;
  emit use_temp_region ;;;
  emit (run_command "g.region" [("rast", raster)]) ;;;
  if radiance then
    emit (message "Calculating Top of Atmosphere Radiance for {}" [raster]) ;;;
    emit (mapcalc calc_radiance
            [("output", VStr output); ("absCal", absCalFactor);
             ("input_rast", raster); ("efb", effectiveBandwidth)])
  else
    emit (message "Calculating Top of Atmosphere Reflectance for %s" [raster]) ;;;
    emit (mapcalc calc_reflectance
            [("output", VStr output); ("absCal", absCalFactor);
             ("input_rast", raster); ("esd", earthSunDist); ("pi", VFloat PI);
             ("eSun", eSun); ("theta", theta); ("efb", effectiveBandwidth)]).

(** ** [main] *)

(** The parsed command line: [options] and [flags] of [grass.parser()].
    Flag [n] is declared as "Use band numbers instead of letters." and flag
    [r] as "Output radiance instead of reflectance". *)
Record Options : Type := mk_options {
  opt_map : string;
  opt_output_prefix : string;
  opt_metadata_xml : string;
  opt_band : string
}.

Record Flags : Type := mk_flags {
  flag_n : bool;
  flag_r : bool
}.

(** Lines 176-184. *)
Definition band_lookup : gmap string string :=
  <["Pan" := "BAND_P"]> (
  <["Coastal" := "BAND_C"]> (
  <["Blue" := "BAND_B"]> (
  <["Green" := "BAND_G"]> (
  <["Yellow" := "BAND_Y"]> (
  <["Red" := "BAND_R"]> (
  <["Red Edge" := "BAND_RE"]> (
  <["NIR1" := "BAND_N"]> (
  <["NIR2" := "BAND_N2"]> ∅)))))))).

(** Lines 186-194. *)
Definition band_num : gmap string string :=
  <["Pan" := "P"]> (
  <["Coastal" := "1"]> (
  <["Blue" := "2"]> (
  <["Green" := "3"]> (
  <["Yellow" := "4"]> (
  <["Red" := "5"]> (
  <["Red Edge" := "6"]> (
  <["NIR1" := "7"]> (
  <["NIR2" := "8"]> ∅)))))))).

(** The names bound at module level when [main] runs: the imports, the four
    functions, and [options] and [flags]. *)
Definition module_globals : gset string :=
  list_to_set ["sys"; "os"; "datetime"; "math"; "grass"; "etree";
               "EarthSunDistance"; "ExtractVariablesFromMetadata";
               "CalculateTOAR"; "main"; "options"; "flags"].

(** The dicts among the local variables of [main]. *)
Definition main_locals : gmap string (gmap string string) :=
  <["band_lookup" := band_lookup]> (<["band_num" := band_num]> ∅).

(** [name[key]] inside [main]: the name is looked up among the locals, then
    at module level (where nothing can be subscripted; no built-in is called
    [bandLookup] either), and a name bound nowhere is a NameError. *)
Definition lookup_table (name key : string) : result string :=
  match main_locals !! name with
  | Some table => subscript table key
  | None =>
      if decide (name ∈ module_globals) then Raise TypeError
      else Raise (NameError name)
  end.

(** Lines 196-199. *)
Definition output_name (use_band_names : bool) (output_prefix band : string)
  : result string :=
  if use_band_names
  then (code <- lookup_table "band_lookup" band ;; Ok (output_prefix +:+ "." +:+ code))%py
  else (code <- lookup_table "band_num" band ;; Ok (output_prefix +:+ "." +:+ code))%py.

Definition main (fs : filesystem) (options : Options) (flags : Flags) : M unit :=
  let input_map := opt_map options in
  let output_prefix := opt_output_prefix options in
  let metadata_path := opt_metadata_xml options in
  let band := opt_band options in
  let use_band_names := flag_n flags in
  let radiance := flag_r flags in
  output <- lift (output_name use_band_names output_prefix band) ;;
  code <- lift (lookup_table "bandLookup" band) ;;
  variables <- ExtractVariablesFromMetadata fs metadata_path code ;;
  CalculateTOAR ([VStr input_map] ++ variables) output radiance.

(** The per-cell results of the raster transforms a run requested. *)
Definition pixels (run : list event) (cell : string -> R)
  : list (option (string * R)) :=
  flat_map (fun ev => match ev with
                      | mapcalc calc kw => [cell_value calc kw cell]
                      | _ => []
                      end) run.

(** ** The algorithm of section 4.1 of the specification *)

Module Spec.

(** Integer truncation of a real: toward zero. *)
Definition truncate (x : R) : Z :=
  if Rle_dec 0 x then Zfloor x else (- Zfloor (- x))%Z.

(** Steps 2 to 7, for the year [year_ab] used in step 2 and the year and
    month [year_jd], [month_jd] used in step 4. *)
Definition distance (year_ab year_jd month_jd : Z) (t : datetime) : R :=
  let A := Zfloor (IZR year_ab / 100) in
  let B := (2 - A + Zfloor (IZR A / 4))%Z in
  let UT := IZR (hour t) + IZR (minute t) / 60
            + (IZR (second t) + IZR (microsecond t) / 1000000) / 3600 in
  let JD := IZR (truncate (365.25 * (IZR year_jd + 4716)))
            + IZR (truncate (30.6001 * (IZR month_jd + 1)))
            + IZR (day t) + UT / 24 + IZR B - 1524.5 in
  let D := JD - 2451545 in
  let g := radians (357.529 + 0.98560028 * D) in
  1.00014 - 0.01671 * cos g - 0.00014 * cos (2 * g).

End Spec.

(** Step 7 on the mean anomaly in degrees. *)
Definition distance_at_anomaly (x : R) : R :=
  1.00014 - 0.01671 * cos (radians x) - 0.00014 * cos (radians (2 * x)).

(** ** Notions used in the statements *)

(** The four paths [ExtractVariablesFromMetadata] reads for a band. *)
Definition required_fields (band : string) : list string :=
  ["IMD/" +:+ band +:+ "/ABSCALFACTOR";
   "IMD/" +:+ band +:+ "/EFFECTIVEBANDWIDTH";
   "IMD/IMAGE/MEANSUNEL";
   "IMD/MAP_PROJECTED_PRODUCT/EARLIESTACQTIME"].

(** The node of a field is absent, or has no text content. *)
Definition lacks (root : element) (path : string) : Prop :=
  match find root path with
  | None => True
  | Some e => text_of e = None
  end.

(** The number a field holds: [float(root.find(path).text)]. *)
Definition field_value (root : element) (path : string) : result R :=
  (x <- find_text root path ;; Float.float x)%py.

(** Placeholders bound to binary64 constants. *)
Fixpoint binary64_placeholder (kw : list (string * float)) (name : string)
  : option float :=
  match kw with
  | [] => None
  | (k, v) :: rest => if String.eqb k name then Some v else binary64_placeholder rest name
  end.

(** A metadata file with the four fields of the Red band. *)
Definition example_metadata : element :=
  Element "isd" None
    [Element "IMD" None
       [Element "BAND_R" None
          [Element "ABSCALFACTOR" (Some "9.295654e-03") [];
           Element "EFFECTIVEBANDWIDTH" (Some "5.850000e-02") []];
        Element "IMAGE" None [Element "MEANSUNEL" (Some "60.0") []];
        Element "MAP_PROJECTED_PRODUCT" None
          [Element "EARLIESTACQTIME" (Some "2013-07-12T16:00:00.000000Z") []]]].

(** The canonical spelling of an instant in the format of
    [EARLIESTACQTIME], YYYY-MM-DDTHH:MM:SS.ffffffZ: every field at its full
    width. *)
Definition digit_char (d : Z) : ascii := ascii_of_nat (48 + Z.to_nat d).

Fixpoint digits (width : nat) (v : Z) : string :=
  match width with
  | O => EmptyString
  | S w => digits w (v / 10) +:+ String (digit_char (v mod 10)) EmptyString
  end.

Definition isoformat (t : datetime) : string :=
  digits 4 (year t) +:+ "-" +:+ digits 2 (month t) +:+ "-" +:+ digits 2 (day t)
  +:+ "T" +:+ digits 2 (hour t) +:+ ":" +:+ digits 2 (minute t) +:+ ":"
  +:+ digits 2 (second t) +:+ "." +:+ digits 6 (microsecond t) +:+ "Z".

Fixpoint all_digits (s : string) : bool :=
  match s with
  | String c r => is_digit c && all_digits r
  | EmptyString => true
  end.

(** What follows a run of digits: nothing, or a character that is none. *)
Definition ends_run (rest : string) : bool :=
  match rest with
  | String c _ => negb (is_digit c)
  | EmptyString => true
  end.

(** ** Calendar notions for the Julian day *)

(** The local [JD] of [EarthSunDistance] (lines 91-103) as a function of the
    parsed instant. *)
Definition JD_of (acqTime : datetime) : R :=
  julian_day (fst (adjusted acqTime)) (snd (adjusted acqTime)) acqTime.

Definition with_date (t : datetime) (y m d : Z) : datetime :=
  mk_datetime y m d (hour t) (minute t) (second t) (microsecond t).

(** The same time of day on the following calendar day. *)
Definition next_day (t : datetime) : datetime :=
  if (day t <? days_in_month (year t) (month t))%Z
  then with_date t (year t) (month t) (day t + 1)
  else if (month t <? 12)%Z then with_date t (year t) (month t + 1) 1
  else with_date t (year t + 1) 1 1.

(** The integer terms of line 102-103 in integer arithmetic. *)
Definition day_number (t : datetime) : Z :=
  let (m, y) := adjusted t in
  (1461 * (y + 4716) / 4 + 306001 * (m + 1) / 10000 + day t
   + (2 - y / 100 + y / 100 / 4))%Z.

(** The same file with an acquisition time that names no day. *)
Definition example_metadata_bad_time : element :=
  Element "isd" None
    [Element "IMD" None
       [Element "BAND_R" None
          [Element "ABSCALFACTOR" (Some "9.295654e-03") [];
           Element "EFFECTIVEBANDWIDTH" (Some "5.850000e-02") []];
        Element "IMAGE" None [Element "MEANSUNEL" (Some "60.0") []];
        Element "MAP_PROJECTED_PRODUCT" None
          [Element "EARLIESTACQTIME" (Some "2013-02-30T16:00:00.000000Z") []]]].

(** ** GRASS requests that can fail *)

(** How GRASS answers a request: [Ok tt], or the exception the call raises
    (a module that fails, [grass.fatal] ending the script).  Which requests
    can fail, and how, depends on the GRASS version; an [engine] is any
    such behaviour. *)
Definition engine : Type := event -> result unit.

Definition request (g : engine) (ev : event) : M unit := ([ev], g ev).

(** [CalculateTOAR] (lines 141-163) against an engine; [CalculateTOAR] above
    is the run in which every request succeeds. *)
Definition CalculateTOAR_on (g : engine)
    (rastItems : list pyval) (output : string) (radiance : bool) : M unit :=
  raster <- item rastItems 0 ;;
  absCalFactor <- item rastItems 1 ;;
  theta <- item rastItems 2 ;;
  earthSunDist <- item rastItems 3 ;;
  eSun <- item rastItems 4 ;;
  effectiveBandwidth <- item rastItems 5 ;;
  request g use_temp_region ;;;
  request g (run_command "g.region" [("rast", raster)]) ;;;
  if radiance then
    request g (message "Calculating Top of Atmosphere Radiance for {}" [raster]) ;;;
    request g (mapcalc calc_radiance
                 [("output", VStr output); ("absCal", absCalFactor);
                  ("input_rast", raster); ("efb", effectiveBandwidth)])
  else
    request g (message "Calculating Top of Atmosphere Reflectance for %s" [raster]) ;;;
    request g (mapcalc calc_reflectance
                 [("output", VStr output); ("absCal", absCalFactor);
                  ("input_rast", raster); ("esd", earthSunDist); ("pi", VFloat PI);
                  ("eSun", eSun); ("theta", theta); ("efb", effectiveBandwidth)]).

(** The requests of a list made in order, up to and including the first
    one that fails. *)
Fixpoint perform (g : engine) (evs : list event) : M unit :=
  match evs with
  | [] => ([], Ok tt)
  | ev :: rest =>
      match g ev with
      | Ok _ => let (t, r) := perform g rest in (ev :: t, r)
      | Raise e => ([ev], Raise e)
      end
  end.

(** The placeholders of an expression. *)
Fixpoint placeholders (e : expr) : list string :=
  match e with
  | Var name => [name]
  | Mul a b => placeholders a ++ placeholders b
  | Div a b => placeholders a ++ placeholders b
  | Pow a _ => placeholders a
  | Cos a => placeholders a
  end.

(** Every placeholder of a template, its target included, has a keyword
    argument: [string.Template.substitute] raises no KeyError. *)
Definition all_bound (calc : statement) (kw : kwargs) : bool :=
  forallb (fun name => match keyword name kw with Some _ => true | None => false end)
          (target calc :: placeholders (rhs calc)).

(** * Properties *)

(** ** Truncation and division *)

Lemma py_int_truncate (x : R) : py_int x = Spec.truncate x.
Proof. reflexivity. Qed.

Lemma py_int_floor (x : R) : 0 <= x -> py_int x = Zfloor x.
Proof.
  intros Hx. unfold py_int. destruct (Rle_dec 0 x) as [_ | Hn]; [reflexivity | contradiction].
Qed.

Lemma py_int_eq (z : Z) (x : R) :
  (0 <= z)%Z -> IZR z <= x < IZR z + 1 -> py_int x = z.
Proof.
  intros Hz Hx. rewrite py_int_floor.
  - apply Zfloor_eq. exact Hx.
  - apply IZR_le in Hz. lra.
Qed.

Lemma quotient_bounds (a b : Z) :
  (0 < b)%Z -> IZR (a / b) <= IZR a / IZR b < IZR (a / b) + 1.
Proof.
  intros Hb.
  assert (Hb' : 0 < IZR b) by (apply IZR_lt in Hb; exact Hb).
  pose proof (Z.mul_div_le a b Hb) as Hlo.
  pose proof (Z.mul_succ_div_gt a b Hb) as Hhi.
  apply IZR_le in Hlo. apply IZR_lt in Hhi.
  rewrite mult_IZR in Hlo. rewrite mult_IZR, succ_IZR in Hhi.
  split.
  - apply Rmult_le_reg_r with (r := IZR b); [exact Hb' |].
    unfold Rdiv. rewrite Rmult_assoc, Rinv_l by lra. lra.
  - apply Rmult_lt_reg_r with (r := IZR b); [exact Hb' |].
    unfold Rdiv. rewrite Rmult_assoc, Rinv_l by lra. lra.
Qed.

(** [int(a / b)] does not depend on the interpreter: truncating the float
    quotient (Python 3) gives the floor quotient of the ints (Python 2). *)
Lemma int_quotient_floor (a b : Z) :
  (0 <= a)%Z -> (0 < b)%Z -> py_int (IZR a / IZR b) = (a / b)%Z.
Proof.
  intros Ha Hb. apply py_int_eq.
  - apply Z.div_pos; assumption.
  - apply quotient_bounds. exact Hb.
Qed.

Lemma floor_quotient (a b : Z) :
  (0 < b)%Z -> Zfloor (IZR a / IZR b) = (a / b)%Z.
Proof. intros Hb. apply Zfloor_eq. apply quotient_bounds. exact Hb. Qed.

(** ** Timestamps *)

Lemma strptime_valid (date : option string) (t : datetime) :
  strptime date = Ok t -> valid t = true.
Proof.
  unfold strptime. destruct date as [s |]; [| discriminate].
  destruct (match_format s) as [t' |]; [| discriminate].
  destruct (valid t') eqn:Hv; [| discriminate].
  intros H. injection H as <-. exact Hv.
Qed.

Lemma valid_year (t : datetime) : valid t = true -> (1 <= year t <= 9999)%Z.
Proof.
  unfold valid. rewrite !andb_true_iff, !Z.leb_le. tauto.
Qed.

Lemma adjusted_year_nonneg (t : datetime) :
  valid t = true -> (0 <= snd (adjusted t))%Z.
Proof.
  intros Hv. apply valid_year in Hv. unfold adjusted.
  destruct ((month t =? 1)%Z || (month t =? 2)%Z); simpl; lia.
Qed.

(** The function as a whole, on the month and year it works with. *)
Lemma EarthSunDistance_eq (date : option string) (t : datetime) :
  strptime date = Ok t ->
  EarthSunDistance date
  = Ok (distance_of_julian_day (julian_day (fst (adjusted t)) (snd (adjusted t)) t)).
Proof.
  intros H. unfold EarthSunDistance. rewrite H. simpl.
  destruct (adjusted t) as [m y]. reflexivity.
Qed.

(** The code's steps are those of the specification whenever the year that
    enters step 2 is not negative. *)
Lemma code_distance_spec (m y : Z) (t : datetime) :
  (0 <= y)%Z ->
  distance_of_julian_day (julian_day m y t) = Spec.distance y y m t.
Proof.
  intros Hy.
  unfold distance_of_julian_day, julian_day, Spec.distance, fractional_hour.
  replace (IZR y / 100) with (IZR y / IZR 100) by reflexivity.
  rewrite (int_quotient_floor y 100) by lia.
  rewrite (floor_quotient y 100) by lia.
  replace (IZR (y / 100) / 4) with (IZR (y / 100) / IZR 4) by reflexivity.
  rewrite (int_quotient_floor (y / 100) 4) by (try apply Z.div_pos; lia).
  rewrite (floor_quotient (y / 100) 4) by lia.
  rewrite !plus_IZR.
  reflexivity.
Qed.

(** ** Canonical timestamps are accepted *)

Lemma digit_cases (k : Z) :
  (0 <= k < 10)%Z ->
  k = 0%Z \/ k = 1%Z \/ k = 2%Z \/ k = 3%Z \/ k = 4%Z \/ k = 5%Z \/ k = 6%Z
  \/ k = 7%Z \/ k = 8%Z \/ k = 9%Z.
Proof. lia. Qed.

Ltac by_digit k H :=
  destruct (digit_cases k H) as [-> | [-> | [-> | [-> | [-> | [-> | [-> | [-> | [-> | ->]]]]]]]]];
  reflexivity.

Lemma is_digit_digit_char (k : Z) :
  (0 <= k < 10)%Z -> is_digit (digit_char k) = true.
Proof. intros H. by_digit k H. Qed.

Lemma value_digit_char (k : Z) :
  (0 <= k < 10)%Z -> (Z.of_nat (nat_of_ascii (digit_char k)) - 48)%Z = k.
Proof. intros H. by_digit k H. Qed.

Lemma all_digits_app (a b : string) :
  all_digits (a +:+ b) = all_digits a && all_digits b.
Proof.
  induction a as [| c a IH]; simpl; [reflexivity |].
  rewrite IH, andb_assoc. reflexivity.
Qed.

Lemma all_digits_digits (w : nat) (v : Z) : all_digits (digits w v) = true.
Proof.
  revert v. induction w as [| w IH]; intros v; simpl; [reflexivity |].
  rewrite all_digits_app, IH. cbn [all_digits].
  rewrite is_digit_digit_char by (apply Z.mod_pos_bound; lia). reflexivity.
Qed.

Lemma length_app (a b : string) :
  String.length (a +:+ b) = (String.length a + String.length b)%nat.
Proof. induction a as [| c a IH]; simpl; [reflexivity | rewrite IH; reflexivity]. Qed.

Lemma length_digits (w : nat) (v : Z) : String.length (digits w v) = w.
Proof.
  revert v. induction w as [| w IH]; intros v; simpl; [reflexivity |].
  rewrite length_app, IH. simpl. lia.
Qed.

Lemma int_of_digits_app (a b : string) (acc : Z) :
  int_of_digits acc (a +:+ b) = int_of_digits (int_of_digits acc a) b.
Proof. revert acc. induction a as [| c a IH]; intros acc; simpl; [reflexivity | apply IH]. Qed.

Lemma int_of_digits_digits (w : nat) (v acc : Z) :
  int_of_digits acc (digits w v) = (acc * 10 ^ Z.of_nat w + v mod 10 ^ Z.of_nat w)%Z.
Proof.
  revert v acc. induction w as [| w IH]; intros v acc.
  - simpl. rewrite Z.mod_1_r. lia.
  - cbn [digits]. rewrite int_of_digits_app, IH. cbn [int_of_digits].
    rewrite value_digit_char by (apply Z.mod_pos_bound; lia).
    rewrite Nat2Z.inj_succ, Z.pow_succ_r by lia.
    rewrite (Z.rem_mul_r v 10 (10 ^ Z.of_nat w)) by lia.
    lia.
Qed.

Lemma int_of_digits_width (w : nat) (v : Z) :
  (0 <= v < 10 ^ Z.of_nat w)%Z -> int_of_digits 0 (digits w v) = v.
Proof.
  intros H. rewrite int_of_digits_digits, Z.mod_small by exact H. lia.
Qed.

Lemma append_nil (r : string) : EmptyString +:+ r = r.
Proof. reflexivity. Qed.

Lemma append_cons (c : ascii) (s r : string) : String c s +:+ r = String c (s +:+ r).
Proof. reflexivity. Qed.

Lemma span_digits_app (s rest : string) :
  all_digits s = true -> ends_run rest = true ->
  span_digits (s +:+ rest) = (s, rest).
Proof.
  intros Hs Hr. induction s as [| c s IH].
  - rewrite append_nil. destruct rest as [| c r]; [reflexivity |].
    cbn [ends_run] in Hr. apply negb_true_iff in Hr.
    cbn [span_digits]. rewrite Hr. reflexivity.
  - cbn [all_digits] in Hs. apply andb_true_iff in Hs as [Hc Hs].
    rewrite append_cons. cbn [span_digits]. rewrite Hc, (IH Hs). reflexivity.
Qed.

Lemma digits_field_digits (lo_len hi_len w : nat) (lo hi v : Z) (rest : string) :
  (lo_len <= w <= hi_len)%nat -> (0 <= v < 10 ^ Z.of_nat w)%Z -> (lo <= v <= hi)%Z ->
  ends_run rest = true ->
  digits_field lo_len hi_len lo hi (digits w v +:+ rest) = Some (v, rest).
Proof.
  intros Hw Hv Hr He. unfold digits_field.
  rewrite (span_digits_app _ _ (all_digits_digits w v) He).
  rewrite length_digits, (int_of_digits_width w v Hv).
  destruct Hw as [Hw1 Hw2]. destruct Hr as [Hr1 Hr2].
  apply Nat.leb_le in Hw1, Hw2. apply Z.leb_le in Hr1, Hr2.
  rewrite Hw1, Hw2, Hr1, Hr2. reflexivity.
Qed.

Lemma day_field_digits (v : Z) (rest : string) :
  (1 <= v <= 31)%Z -> ends_run rest = true ->
  day_field (digits 2 v +:+ rest) = Some (v, rest).
Proof.
  intros Hv He.
  rewrite <- (digits_field_digits 1 2 2 1 31 v rest) by (try exact He; lia).
  cbn [digits]. repeat (rewrite append_nil || rewrite append_cons).
  assert (Hk : (0 <= (v / 10) mod 10 < 10)%Z) by (apply Z.mod_pos_bound; lia).
  destruct (digit_cases _ Hk) as [-> | [-> | [-> | [-> | [-> | [-> | [-> | [-> | [-> | ->]]]]]]]]];
    reflexivity.
Qed.

Lemma fraction_field_digits (v : Z) (rest : string) :
  (0 <= v <= 999999)%Z -> ends_run rest = true ->
  fraction_field (digits 6 v +:+ rest) = Some (v, rest).
Proof.
  intros Hv He. unfold fraction_field.
  rewrite (span_digits_app _ _ (all_digits_digits 6 v) He).
  rewrite length_digits, int_of_digits_width by (change (10 ^ Z.of_nat 6)%Z with 1000000%Z; lia).
  simpl. rewrite Z.mul_1_r. reflexivity.
Qed.

Lemma days_in_month_le (y m : Z) : (days_in_month y m <= 31)%Z.
Proof.
  unfold days_in_month.
  destruct (m =? 2)%Z; [destruct (is_leap y); lia |].
  destruct ((m =? 4)%Z || (m =? 6)%Z || (m =? 9)%Z || (m =? 11)%Z); lia.
Qed.

Lemma valid_ranges (t : datetime) :
  valid t = true ->
  (1 <= year t <= 9999 /\ 1 <= month t <= 12 /\ 1 <= day t <= 31
   /\ 0 <= hour t <= 23 /\ 0 <= minute t <= 59 /\ 0 <= second t <= 59
   /\ 0 <= microsecond t <= 999999)%Z.
Proof.
  unfold valid. rewrite !andb_true_iff, !Z.leb_le.
  pose proof (days_in_month_le (year t) (month t)). lia.
Qed.

(** Every instant, written at full width, is a timestamp the function
    accepts. *)
Lemma strptime_isoformat (t : datetime) :
  valid t = true -> strptime (Some (isoformat t)) = Ok t.
Proof.
  intros Hv. pose proof (valid_ranges t Hv) as (Hy & Hm & Hd & HH & HM & HS & Hf).
  unfold strptime, match_format, isoformat.
  rewrite digits_field_digits by (try reflexivity; simpl; lia).
  cbn -[digits]; repeat (rewrite append_nil || rewrite append_cons); cbn -[digits].
  rewrite digits_field_digits by (try reflexivity; simpl; lia).
  cbn -[digits]; repeat (rewrite append_nil || rewrite append_cons); cbn -[digits].
  rewrite day_field_digits by (try reflexivity; lia).
  cbn -[digits]; repeat (rewrite append_nil || rewrite append_cons); cbn -[digits].
  rewrite digits_field_digits by (try reflexivity; simpl; lia).
  cbn -[digits]; repeat (rewrite append_nil || rewrite append_cons); cbn -[digits].
  rewrite digits_field_digits by (try reflexivity; simpl; lia).
  cbn -[digits]; repeat (rewrite append_nil || rewrite append_cons); cbn -[digits].
  rewrite digits_field_digits by (try reflexivity; simpl; lia).
  cbn -[digits]; repeat (rewrite append_nil || rewrite append_cons); cbn -[digits].
  rewrite fraction_field_digits by (try reflexivity; lia). cbn -[digits valid].
  destruct t as [y m d h mi se f]. cbn [year month day hour minute second microsecond] in *.
  rewrite Hv. reflexivity.
Qed.

(** ** Angles *)

Lemma radians_double (x : R) : 2 * radians x = radians (2 * x).
Proof. unfold radians. lra. Qed.

Lemma cos_radians_turns (x : R) (k : nat) :
  cos (radians (x + 360 * INR k)) = cos (radians x).
Proof.
  unfold radians.
  replace ((x + 360 * INR k) * (PI / 180)) with (x * (PI / 180) + 2 * INR k * PI) by lra.
  apply cos_period.
Qed.

Lemma cos_radians_decreasing (x y : R) :
  0 <= x -> x < y -> y <= 180 -> cos (radians y) < cos (radians x).
Proof.
  intros Hx Hxy Hy. pose proof PI_RGT_0 as Hpi. unfold radians.
  apply cos_decreasing_1; nra.
Qed.

Lemma distance_at_anomaly_turns (x : R) (k : nat) :
  1.00014 - 0.01671 * cos (radians (x + 360 * INR k))
  - 0.00014 * cos (2 * radians (x + 360 * INR k))
  = distance_at_anomaly x.
Proof.
  unfold distance_at_anomaly.
  rewrite radians_double, cos_radians_turns.
  replace (2 * (x + 360 * INR k)) with (2 * x + 360 * INR (2 * k))
    by (rewrite mult_INR; simpl; lra).
  rewrite cos_radians_turns. reflexivity.
Qed.

Lemma distance_at_anomaly_increasing (x y : R) :
  0 <= x -> x < y -> y <= 90 -> distance_at_anomaly x < distance_at_anomaly y.
Proof.
  intros Hx Hxy Hy. unfold distance_at_anomaly.
  assert (H1 : cos (radians y) < cos (radians x))
    by (apply cos_radians_decreasing; lra).
  assert (H2 : cos (radians (2 * y)) < cos (radians (2 * x)))
    by (apply cos_radians_decreasing; lra).
  lra.
Qed.

Lemma distance_range (JD : R) :
  0.983 <= distance_of_julian_day JD <= 1.017.
Proof.
  unfold distance_of_julian_day.
  set (g := radians _).
  pose proof (COS_bound g) as Hg.
  pose proof (COS_bound (2 * g)) as H2g.
  lra.
Qed.

Lemma truncate_eq (z : Z) (x : R) :
  (0 <= z)%Z -> IZR z <= x < IZR z + 1 -> Spec.truncate x = z.
Proof. exact (py_int_eq z x). Qed.

(** Evaluation of [Spec.distance] at a given instant: the integer parts are
    settled one by one and the anomaly is brought back into the first turn. *)
Ltac floor_quotient_at a b q :=
  rewrite (floor_quotient a b) by lia; change (a / b)%Z with q.

Ltac truncate_at z :=
  match goal with
  | |- context [Spec.truncate ?x] =>
      rewrite (truncate_eq z x) by first [lia | lra]
  end.

Ltac anomaly_at x k :=
  match goal with
  | |- context [radians ?a] => replace a with (x + 360 * INR k) by (simpl; lra)
  end;
  apply distance_at_anomaly_turns.

Lemma distance_2013_01_15_code :
  Spec.distance 2012 2012 13 (mk_datetime 2013 1 15 0 0 0 0)
  = distance_at_anomaly 11.4503335.
Proof.
  unfold Spec.distance. cbn [year month day hour minute second microsecond].
  floor_quotient_at 2012%Z 100%Z 20%Z. floor_quotient_at 20%Z 4%Z 5%Z.
  truncate_at 2457402%Z. truncate_at 428%Z.
  change (2 - 20 + 5)%Z with (-13)%Z.
  anomaly_at 11.4503335 14%nat.
Qed.

Lemma distance_2013_01_15_original_month :
  Spec.distance 2012 2013 1 (mk_datetime 2013 1 15 0 0 0 0)
  = distance_at_anomaly 9.47913294.
Proof.
  unfold Spec.distance. cbn [year month day hour minute second microsecond].
  floor_quotient_at 2012%Z 100%Z 20%Z. floor_quotient_at 20%Z 4%Z 5%Z.
  truncate_at 2457767%Z. truncate_at 61%Z.
  change (2 - 20 + 5)%Z with (-13)%Z.
  anomaly_at 9.47913294 14%nat.
Qed.

(** ** Earth-Sun distance *)

(** C3, as the specification words it, fails: a timestamp can have the
    syntax of the format and still make the function raise.  30 February
    and a second numbered 60 match the format, and [strptime] rejects both
    with ValueError. *)
Lemma EarthSunDistance_fails_on_well_formed_timestamp :
  match_format "2013-02-30T16:00:00.000000Z" = Some (mk_datetime 2013 2 30 16 0 0 0)
  /\ EarthSunDistance (Some "2013-02-30T16:00:00.000000Z"%string) = Raise ValueError
  /\ match_format "2012-06-30T23:59:60.000000Z" = Some (mk_datetime 2012 6 30 23 59 60 0)
  /\ EarthSunDistance (Some "2012-06-30T23:59:60.000000Z"%string) = Raise ValueError.
Proof. repeat split; vm_compute; reflexivity. Qed.

(** C3, amended. For every timestamp that has the syntax of the format, the
    function raises ValueError when the fields name no instant (year 0, a
    day beyond the end of its month, a second above 59) and otherwise
    returns, without failing, the value of the specification's steps 2 to 7:
    A = floor(year/100), B = 2 - A + floor(A/4), the fractional hour UT,
    the Julian day with its two terms truncated toward zero,
    D = JD - 2451545, g = radians(357.529 + 0.98560028 D) and
    1.00014 - 0.01671 cos g - 0.00014 cos 2g, where year and month are the
    timestamp's own from March to December and the previous year and
    month + 12 in January and February. *)
Theorem EarthSunDistance_formula (date : string) (t : datetime) :
  match_format date = Some t ->
  let shifted := (month t =? 1)%Z || (month t =? 2)%Z in
  let y := if shifted then (year t - 1)%Z else year t in
  let m := if shifted then (month t + 12)%Z else month t in
  let A := Zfloor (IZR y / 100) in
  let B := (2 - A + Zfloor (IZR A / 4))%Z in
  let UT := IZR (hour t) + IZR (minute t) / 60
            + (IZR (second t) + IZR (microsecond t) / 1000000) / 3600 in
  let JD := IZR (Spec.truncate (365.25 * (IZR y + 4716)))
            + IZR (Spec.truncate (30.6001 * (IZR m + 1)))
            + IZR (day t) + UT / 24 + IZR B - 1524.5 in
  let D := JD - 2451545 in
  let g := radians (357.529 + 0.98560028 * D) in
  let distance := 1.00014 - 0.01671 * cos g - 0.00014 * cos (2 * g) in
  EarthSunDistance (Some date) = if valid t then Ok distance else Raise ValueError.
Proof.
  intros H. cbv zeta.
  unfold EarthSunDistance, strptime. rewrite H.
  destruct (valid t) eqn:Hv; cbn [rbind]; [| reflexivity].
  pose proof (valid_year t Hv) as Hy.
  unfold adjusted.
  destruct ((month t =? 1)%Z || (month t =? 2)%Z);
    rewrite code_distance_spec by lia; reflexivity.
Qed.

Lemma EarthSunDistance_formula_witness :
  match_format "2013-07-12T16:00:00.000000Z" = Some (mk_datetime 2013 7 12 16 0 0 0)
  /\ EarthSunDistance (Some "2013-07-12T16:00:00.000000Z"%string)
     = Ok (Spec.distance 2013 2013 7 (mk_datetime 2013 7 12 16 0 0 0)).
Proof.
  split.
  - vm_compute. reflexivity.
  - exact (EarthSunDistance_formula "2013-07-12T16:00:00.000000Z"
             (mk_datetime 2013 7 12 16 0 0 0) eq_refl).
Defined.

(** C10. For the acquisition time 2013-07-12T16:00:00.000000Z the function
    returns a distance between 0.983 and 1.017 astronomical units. *)
Theorem EarthSunDistance_2013_07_12_in_range :
  exists d : R,
    EarthSunDistance (Some "2013-07-12T16:00:00.000000Z"%string) = Ok d
    /\ 0.983 <= d <= 1.017.
Proof.
  eexists. split.
  - apply (EarthSunDistance_eq _ (mk_datetime 2013 7 12 16 0 0 0)).
    vm_compute. reflexivity.
  - apply distance_range.
Qed.

(** C4, as the specification words it, fails: on 15 January 2013 the
    function does not return what the steps give when only steps 2 and 3 see
    month 13 of 2012 and step 4 sees January 2013. *)
Lemma EarthSunDistance_january_original_month_differs :
  strptime (Some "2013-01-15T00:00:00.000000Z"%string)
  = Ok (mk_datetime 2013 1 15 0 0 0 0)
  /\ EarthSunDistance (Some "2013-01-15T00:00:00.000000Z"%string)
     <> Ok (Spec.distance (2013 - 1) 2013 1 (mk_datetime 2013 1 15 0 0 0 0)).
Proof.
  assert (Hp : strptime (Some "2013-01-15T00:00:00.000000Z"%string)
               = Ok (mk_datetime 2013 1 15 0 0 0 0)) by (vm_compute; reflexivity).
  split; [exact Hp |].
  rewrite (EarthSunDistance_eq _ _ Hp).
  change (adjusted (mk_datetime 2013 1 15 0 0 0 0)) with (13%Z, 2012%Z).
  cbn [fst snd]. rewrite code_distance_spec by lia.
  change (2013 - 1)%Z with 2012%Z.
  rewrite distance_2013_01_15_code, distance_2013_01_15_original_month.
  intros Heq. injection Heq as Heq.
  pose proof (distance_at_anomaly_increasing 9.47913294 11.4503335) as Hlt.
  lra.
Qed.

(** C4, amended. For every timestamp of January or February the function
    works with month + 12 of the previous year in step 2 (A and B) and in
    step 4 (the Julian day); step 3, the fractional hour, reads neither the
    month nor the year. *)
Theorem EarthSunDistance_january_february (date : string) (t : datetime) :
  strptime (Some date) = Ok t ->
  month t = 1%Z \/ month t = 2%Z ->
  adjusted t = ((month t + 12)%Z, (year t - 1)%Z)
  /\ EarthSunDistance (Some date)
     = Ok (Spec.distance (year t - 1) (year t - 1) (month t + 12) t).
Proof.
  intros H Hm.
  assert (Ha : adjusted t = ((month t + 12)%Z, (year t - 1)%Z)).
  { unfold adjusted. destruct Hm as [-> | ->]; reflexivity. }
  split; [exact Ha |].
  pose proof (valid_year t (strptime_valid _ _ H)) as Hy.
  rewrite (EarthSunDistance_eq _ _ H), Ha. cbn [fst snd].
  rewrite code_distance_spec by lia. reflexivity.
Qed.

Lemma EarthSunDistance_january_february_witness :
  strptime (Some "2013-01-15T00:00:00.000000Z"%string)
  = Ok (mk_datetime 2013 1 15 0 0 0 0)
  /\ EarthSunDistance (Some "2013-01-15T00:00:00.000000Z"%string)
     = Ok (Spec.distance 2012 2012 13 (mk_datetime 2013 1 15 0 0 0 0)).
Proof.
  split.
  - vm_compute. reflexivity.
  - exact (proj2 (EarthSunDistance_january_february
                    "2013-01-15T00:00:00.000000Z"
                    (mk_datetime 2013 1 15 0 0 0 0) eq_refl (or_introl eq_refl))).
Defined.

(** ** Runs *)

Lemma bind_raise {A B : Type} (m : M A) (k : A -> M B) (t : list event) (e : exn) :
  m = (t, Raise e) -> bind m k = (t, Raise e).
Proof. intros ->. reflexivity. Qed.

Lemma bind_ret {A B : Type} (a : A) (k : A -> M B) :
  bind (lift (Ok a)) k = k a.
Proof. unfold bind, lift. destruct (k a) as [t r]. reflexivity. Qed.

Lemma lookup_bandLookup (key : string) :
  lookup_table "bandLookup" key = Raise (NameError "bandLookup").
Proof. reflexivity. Qed.

(** ** [main] *)

(** C7. The claim that the band-code lookup at the extraction call site is
    well defined does not hold of the code: the table is bound to
    [band_lookup] and the call site reads [bandLookup], a name bound nowhere,
    so every run of [main] that gets past the output name ends in a
    NameError for that name, before the metadata file is opened and with no
    request sent to GRASS. *)
Theorem main_bandLookup_NameError
    (fs : filesystem) (options : Options) (flags : Flags) :
  lookup_table "bandLookup" (opt_band options) = Raise (NameError "bandLookup")
  /\ main fs options flags
     = ([], Raise (match output_name (flag_n flags) (opt_output_prefix options)
                                     (opt_band options) with
                   | Ok _ => NameError "bandLookup"
                   | Raise e => e
                   end)).
Proof.
  split; [apply lookup_bandLookup |].
  unfold main.
  destruct (output_name (flag_n flags) (opt_output_prefix options) (opt_band options));
    reflexivity.
Qed.

Example main_Red_NameError (fs : filesystem) :
  main fs (mk_options "wv2" "toa" "meta.xml" "Red") (mk_flags false false)
  = ([], Raise (NameError "bandLookup")).
Proof. reflexivity. Qed.

(** C6. The output is named prefix.code, but the choice of code is the
    reverse of what flag [n] ("Use band numbers instead of letters.") says:
    with the flag set, prefix toa and band NIR1 give toa.BAND_N, and with
    the flag unset they give toa.7. *)
Theorem output_name_flag_n_inverted :
  output_name (flag_n (mk_flags true false)) "toa" "NIR1" = Ok "toa.BAND_N"%string
  /\ output_name (flag_n (mk_flags false false)) "toa" "NIR1" = Ok "toa.7"%string.
Proof. split; reflexivity. Qed.

(** ** Extraction failures *)

Lemma ExtractVariablesFromMetadata_document
    (fs : filesystem) (path band : string) (root : element) :
  fs path = Some (Document root) ->
  ExtractVariablesFromMetadata fs path band
  = try_except (lift (extract_body root band))
               (bind (emit (message could_not_find [])) (fun _ => sys_exit 1)).
Proof.
  intros H. unfold ExtractVariablesFromMetadata. rewrite H. simpl of_option.
  rewrite !bind_ret. reflexivity.
Qed.

Lemma try_except_raise (body : result (list pyval)) (e : exn) :
  body = Raise e ->
  try_except (lift body) (bind (emit (message could_not_find [])) (fun _ => sys_exit 1))
  = ([message could_not_find []], Raise (SystemExit 1)).
Proof. intros ->. reflexivity. Qed.

Lemma find_text_lacks (root : element) (path : string) :
  lacks root path ->
  find_text root path = Raise AttributeError \/ find_text root path = Ok None.
Proof.
  unfold lacks, find_text. destruct (find root path) as [e |].
  - intros ->. right. reflexivity.
  - intros _. left. reflexivity.
Qed.

Ltac step_body :=
  match goal with
  | |- context [rbind ?m _] =>
      let r := fresh "r" in
      destruct m as [r | ?]; [try destruct r | ]; simpl
  end.

Lemma extract_body_lacks (root : element) (band : string) :
  Exists (lacks root) (required_fields band) ->
  exists e : exn, extract_body root band = Raise e.
Proof.
  unfold required_fields. intros H.
  repeat (apply Exists_cons in H; destruct H as [H | H]);
    try (apply Exists_nil in H; contradiction);
    apply find_text_lacks in H; unfold extract_body;
    destruct H as [H | H]; rewrite ?H; simpl;
    repeat (first [ eexists; reflexivity | step_body ]).
Qed.

(** C8. When the node of a required field is absent or has no text, the
    extraction ends in the handled failure of the script (the diagnostic
    "Could not find required variables..." and [sys.exit(1)], the code's
    MetadataFieldMissing) and not in a crash; it returns no record; whatever
    is sequenced after it, as [CalculateTOAR] is on lines 202-203, is not
    run, so no raster transform is requested; and no run of [main] on that
    file requests one. *)
Theorem missing_field_exits
    (fs : filesystem) (path band : string) (root : element) :
  fs path = Some (Document root) ->
  Exists (lacks root) (required_fields band) ->
  ExtractVariablesFromMetadata fs path band
  = ([message could_not_find []], Raise (SystemExit 1))
  /\ is_crash (snd (ExtractVariablesFromMetadata fs path band)) = false
  /\ (forall next : list pyval -> M unit,
        bind (ExtractVariablesFromMetadata fs path band) next
        = ([message could_not_find []], Raise (SystemExit 1)))
  /\ (forall (input_map output_prefix b : string) (flags : Flags) (cell : string -> R),
        pixels (fst (main fs (mk_options input_map output_prefix path b) flags)) cell
        = []).
Proof.
  intros Hfs Hmiss.
  destruct (extract_body_lacks root band Hmiss) as [e He].
  assert (Hrun : ExtractVariablesFromMetadata fs path band
                 = ([message could_not_find []], Raise (SystemExit 1))).
  { rewrite (ExtractVariablesFromMetadata_document fs path band root Hfs).
    apply (try_except_raise _ e He). }
  split; [exact Hrun |].
  split; [rewrite Hrun; reflexivity |].
  split.
  - intros next. apply bind_raise. exact Hrun.
  - intros input_map output_prefix b flags cell. unfold main. simpl.
    destruct (output_name (flag_n flags) output_prefix b); reflexivity.
Qed.

Lemma missing_field_exits_witness :
  ExtractVariablesFromMetadata
    (fun _ => Some (Document
       (Element "isd" None
          [Element "IMD" None
             [Element "BAND_R" None
                [Element "EFFECTIVEBANDWIDTH" (Some "5.850000e-02") []];
              Element "IMAGE" None [Element "MEANSUNEL" (Some "60.0") []];
              Element "MAP_PROJECTED_PRODUCT" None
                [Element "EARLIESTACQTIME" (Some "2013-07-12T16:00:00.000000Z") []]]])))
    "meta.xml" "BAND_R"
  = ([message could_not_find []], Raise (SystemExit 1)).
Proof.
  refine (proj1 (missing_field_exits _ "meta.xml" "BAND_R" _ eq_refl _)).
  apply Exists_cons_hd. vm_compute. exact I.
Defined.

(** C9, as the specification words it, fails: a file that is not
    well-formed makes the extraction crash with the parser's ParseError; it
    is not turned into the handled failure. *)
Lemma not_well_formed_crashes :
  ExtractVariablesFromMetadata (fun _ => Some NotWellFormed) "meta.xml" "BAND_R"
  = ([], Raise ParseError)
  /\ is_crash (snd (ExtractVariablesFromMetadata
                      (fun _ => Some NotWellFormed) "meta.xml" "BAND_R")) = true
  /\ is_exit (snd (ExtractVariablesFromMetadata
                     (fun _ => Some NotWellFormed) "meta.xml" "BAND_R")) = false.
Proof. repeat split. Qed.

(** C9, amended. For every metadata file that is not well-formed, the
    extraction raises the parser's ParseError to its caller: the catch-all
    handler does not cover the parse, no diagnostic is emitted, no record is
    returned, and nothing sequenced after the extraction runs. *)
Theorem not_well_formed_raises_ParseError
    (fs : filesystem) (path band : string) :
  fs path = Some NotWellFormed ->
  ExtractVariablesFromMetadata fs path band = ([], Raise ParseError)
  /\ (forall next : list pyval -> M unit,
        bind (ExtractVariablesFromMetadata fs path band) next = ([], Raise ParseError)).
Proof.
  intros H.
  assert (Hrun : ExtractVariablesFromMetadata fs path band = ([], Raise ParseError)).
  { unfold ExtractVariablesFromMetadata. rewrite H. reflexivity. }
  split; [exact Hrun |].
  intros next. apply bind_raise. exact Hrun.
Qed.

Lemma not_well_formed_raises_ParseError_witness :
  ExtractVariablesFromMetadata (fun _ => Some NotWellFormed) "meta.xml" "BAND_R"
  = ([], Raise ParseError).
Proof.
  exact (proj1 (not_well_formed_raises_ParseError
                  (fun _ => Some NotWellFormed) "meta.xml" "BAND_R" eq_refl)).
Defined.

(** ** The raster transforms *)

Lemma CalculateTOAR_radiance
    (raster output : string) (a theta esd eSun efb : R) (cell : string -> R) :
  pixels (fst (CalculateTOAR [VStr raster; VFloat a; VFloat theta; VFloat esd;
                              VFloat eSun; VFloat efb] output true)) cell
  = [Some (output, (a * cell raster) / efb)].
Proof. reflexivity. Qed.

Lemma CalculateTOAR_reflectance
    (raster output : string) (a theta esd eSun efb : R) (cell : string -> R) :
  pixels (fst (CalculateTOAR [VStr raster; VFloat a; VFloat theta; VFloat esd;
                              VFloat eSun; VFloat efb] output false)) cell
  = [Some (output,
           ((a * cell raster) / efb) * esd ^ 2 * PI / (eSun * cos (radians theta)))].
Proof. reflexivity. Qed.

(** What a successful extraction returns, field by field. *)
Lemma extract_body_ok (root : element) (band : string) (vars : list pyval) :
  extract_body root band = Ok vars ->
  exists a el esd eSun efb : R,
    field_value root ("IMD/" +:+ band +:+ "/ABSCALFACTOR") = Ok a
    /\ field_value root "IMD/IMAGE/MEANSUNEL" = Ok el
    /\ (x <- find_text root "IMD/MAP_PROJECTED_PRODUCT/EARLIESTACQTIME" ;;
        EarthSunDistance x)%py = Ok esd
    /\ SSI !! band = Some eSun
    /\ field_value root ("IMD/" +:+ band +:+ "/EFFECTIVEBANDWIDTH") = Ok efb
    /\ vars = [VFloat a; VFloat (90 - el); VFloat esd; VFloat eSun; VFloat efb].
Proof.
  unfold extract_body, field_value, subscript.
  destruct (find_text root ("IMD/" +:+ band +:+ "/ABSCALFACTOR")) as [x1 |]; [| discriminate].
  destruct (find_text root ("IMD/" +:+ band +:+ "/EFFECTIVEBANDWIDTH")) as [x2 |]; [| discriminate].
  destruct (find_text root "IMD/IMAGE/MEANSUNEL") as [x3 |]; [| discriminate].
  destruct (find_text root "IMD/MAP_PROJECTED_PRODUCT/EARLIESTACQTIME") as [x4 |]; [| discriminate].
  simpl.
  destruct (EarthSunDistance x4) as [esd |]; [| discriminate]. simpl.
  destruct (Float.float x1) as [a |]; [| discriminate]. simpl.
  destruct (Float.float x3) as [el |]; [| discriminate]. simpl.
  destruct (SSI !! band) as [eSun |]; [| discriminate]. simpl.
  destruct (Float.float x2) as [efb |]; [| discriminate]. simpl.
  intros H. injection H as <-.
  exists a, el, esd, eSun, efb. repeat split; reflexivity.
Qed.

Lemma ExtractVariablesFromMetadata_ok
    (fs : filesystem) (path band : string) (root : element)
    (t : list event) (vars : list pyval) :
  fs path = Some (Document root) ->
  ExtractVariablesFromMetadata fs path band = (t, Ok vars) ->
  extract_body root band = Ok vars.
Proof.
  intros Hfs. rewrite (ExtractVariablesFromMetadata_document fs path band root Hfs).
  destruct (extract_body root band) as [v | e]; simpl.
  - intros H. injection H as _ <-. reflexivity.
  - discriminate.
Qed.

(** C1. In reflectance mode the value the requested transform gives a cell
    whose count is DN is
    ((absCal * DN) / efb) * esd^2 * pi / (eSun * cos(radians(theta))), for
    every record; for the record the extraction returns, the factors are the
    numbers of the metadata fields, the distance of [EarthSunDistance], the
    irradiance of the table, and theta = 90 - mean sun elevation; and with
    L = 0.01 * 1000 / 50 = 0.2, esd = 1, eSun = 1559.4555 and theta = 30 the
    value is 0.2 * 1.0 * pi / (1559.4555 * cos(30 degrees)). *)
Theorem reflectance_formula
    (fs : filesystem) (path band : string) (root : element)
    (t : list event) (vars : list pyval)
    (input_map output : string) (cell : string -> R) :
  fs path = Some (Document root) ->
  ExtractVariablesFromMetadata fs path band = (t, Ok vars) ->
  (exists absCal elevation esd eSun efb : R,
      field_value root ("IMD/" +:+ band +:+ "/ABSCALFACTOR") = Ok absCal
      /\ field_value root "IMD/IMAGE/MEANSUNEL" = Ok elevation
      /\ (x <- find_text root "IMD/MAP_PROJECTED_PRODUCT/EARLIESTACQTIME" ;;
          EarthSunDistance x)%py = Ok esd
      /\ SSI !! band = Some eSun
      /\ field_value root ("IMD/" +:+ band +:+ "/EFFECTIVEBANDWIDTH") = Ok efb
      /\ pixels (fst (CalculateTOAR ([VStr input_map] ++ vars) output false)) cell
         = [Some (output,
                  ((absCal * cell input_map) / efb) * esd ^ 2 * PI
                  / (eSun * cos (radians (90 - elevation))))])
  /\ (forall absCal theta esd eSun efb : R,
        pixels (fst (CalculateTOAR [VStr input_map; VFloat absCal; VFloat theta;
                                    VFloat esd; VFloat eSun; VFloat efb]
                                   output false)) cell
        = [Some (output,
                 ((absCal * cell input_map) / efb) * esd ^ 2 * PI
                 / (eSun * cos (radians theta)))])
  /\ pixels (fst (CalculateTOAR [VStr input_map; VFloat 0.01; VFloat 30;
                                 VFloat 1.0; VFloat 1559.4555; VFloat 50]
                                output false)) (fun _ => 1000)
     = [Some (output, 0.2 * 1.0 * PI / (1559.4555 * cos (radians 30)))].
Proof.
  intros Hfs Hrun.
  pose proof (ExtractVariablesFromMetadata_ok fs path band root t vars Hfs Hrun) as Hbody.
  destruct (extract_body_ok root band vars Hbody)
    as (a & el & esd & eSun & efb & Ha & Hel & Hesd & HeSun & Hefb & ->).
  split; [| split].
  - exists a, el, esd, eSun, efb.
    repeat (split; [assumption |]).
    apply CalculateTOAR_reflectance.
  - intros. apply CalculateTOAR_reflectance.
  - rewrite CalculateTOAR_reflectance.
    do 3 f_equal. f_equal. lra.
Qed.

Lemma reflectance_formula_witness :
  exists absCal elevation esd eSun efb : R,
    field_value example_metadata "IMD/BAND_R/ABSCALFACTOR" = Ok absCal
    /\ field_value example_metadata "IMD/IMAGE/MEANSUNEL" = Ok elevation
    /\ (x <- find_text example_metadata "IMD/MAP_PROJECTED_PRODUCT/EARLIESTACQTIME" ;;
        EarthSunDistance x)%py = Ok esd
    /\ SSI !! "BAND_R"%string = Some eSun
    /\ field_value example_metadata "IMD/BAND_R/EFFECTIVEBANDWIDTH" = Ok efb
    /\ pixels (fst (CalculateTOAR
                      ([VStr "wv2"] ++
                       [VFloat (9295654 / 1000000000); VFloat (90 - 600 / 10);
                        VFloat (distance_of_julian_day
                                  (julian_day 7 2013 (mk_datetime 2013 7 12 16 0 0 0)));
                        VFloat 1559.4555; VFloat (5850000 / 100000000)])
                      "toa.5" false)) (fun _ => 1000)
       = [Some ("toa.5"%string,
                ((absCal * 1000) / efb) * esd ^ 2 * PI
                / (eSun * cos (radians (90 - elevation))))].
Proof.
  exact (proj1 (reflectance_formula
                  (fun _ => Some (Document example_metadata)) "meta.xml" "BAND_R"
                  example_metadata []
                  [VFloat (9295654 / 1000000000); VFloat (90 - 600 / 10);
                   VFloat (distance_of_julian_day
                             (julian_day 7 2013 (mk_datetime 2013 7 12 16 0 0 0)));
                   VFloat 1559.4555; VFloat (5850000 / 100000000)]
                  "wv2" "toa.5" (fun _ => 1000) eq_refl eq_refl)).
Defined.

(** C2. In radiance mode the value the requested transform gives a cell
    whose count is DN is (absCal * DN) / efb, for every record; with
    absCal = 0.01, efb = 50 and DN = 1000 it is 0.2, in exact arithmetic and
    also when the three operands and the two operations are binary64. *)
Theorem radiance_formula
    (raster output : string) (absCal theta esd eSun efb : R) (cell : string -> R) :
  pixels (fst (CalculateTOAR [VStr raster; VFloat absCal; VFloat theta; VFloat esd;
                              VFloat eSun; VFloat efb] output true)) cell
  = [Some (output, (absCal * cell raster) / efb)]
  /\ pixels (fst (CalculateTOAR [VStr raster; VFloat 0.01; VFloat theta; VFloat esd;
                                 VFloat eSun; VFloat 50] output true)) (fun _ => 1000)
     = [Some (output, 0.2)]
  /\ (forall (powf : float -> nat -> float) (cosf : float -> float),
        eval (binary64_arith powf cosf)
             (binary64_placeholder
                [("absCal", 0.01%float); ("input_rast", 1000%float); ("efb", 50%float)])
             (rhs calc_radiance)
        = Some 0.2%float).
Proof.
  split; [apply CalculateTOAR_radiance | split].
  - rewrite CalculateTOAR_radiance. do 3 f_equal. lra.
  - intros powf cosf. vm_compute. reflexivity.
Qed.

(** C5. With a zenith angle of 0 degrees and a distance of 1.0, the
    reflectance the transform gives a cell is the radiance it gives the same
    cell, times pi, divided by the solar irradiance, for every calibration
    factor, bandwidth, irradiance and count. *)
Theorem reflectance_of_radiance
    (raster output : string) (absCal eSun efb : R) (cell : string -> R) :
  exists L rho : R,
    pixels (fst (CalculateTOAR [VStr raster; VFloat absCal; VFloat 0; VFloat 1;
                                VFloat eSun; VFloat efb] output true)) cell
    = [Some (output, L)]
    /\ pixels (fst (CalculateTOAR [VStr raster; VFloat absCal; VFloat 0; VFloat 1;
                                   VFloat eSun; VFloat efb] output false)) cell
       = [Some (output, rho)]
    /\ rho = L * PI / eSun.
Proof.
  eexists. eexists.
  split; [apply CalculateTOAR_radiance |].
  split; [apply CalculateTOAR_reflectance |].
  unfold radians. rewrite Rmult_0_l, cos_0, Rmult_1_r.
  unfold Rdiv. ring.
Qed.

(** * Further properties of the code *)

(** ** The Julian day of [EarthSunDistance] *)

Lemma int_365_25 (k : Z) :
  (0 <= k)%Z -> py_int (365.25 * IZR k) = (1461 * k / 4)%Z.
Proof.
  intros Hk.
  replace (365.25 * IZR k) with (IZR (1461 * k) / IZR 4) by (rewrite mult_IZR; lra).
  apply int_quotient_floor; lia.
Qed.

Lemma int_30_6001 (k : Z) :
  (0 <= k)%Z -> py_int (30.6001 * IZR k) = (306001 * k / 10000)%Z.
Proof.
  intros Hk.
  replace (30.6001 * IZR k) with (IZR (306001 * k) / IZR 10000) by (rewrite mult_IZR; lra).
  apply int_quotient_floor; lia.
Qed.

Lemma adjusted_nonneg (t : datetime) :
  (1 <= year t)%Z -> (1 <= month t)%Z ->
  (0 <= fst (adjusted t))%Z /\ (0 <= snd (adjusted t))%Z.
Proof.
  intros Hy Hm. unfold adjusted.
  destruct ((month t =? 1)%Z || (month t =? 2)%Z); cbn [fst snd]; lia.
Qed.

Lemma JD_of_day_number (t : datetime) :
  (1 <= year t)%Z -> (1 <= month t)%Z ->
  JD_of t = IZR (day_number t) + fractional_hour t / 24 - 1524.5.
Proof.
  intros Hy Hm. destruct (adjusted_nonneg t Hy Hm) as [Hm' Hy'].
  unfold JD_of, day_number, julian_day.
  destruct (adjusted t) as [m y]. cbn [fst snd] in *.
  rewrite int_365_25, int_30_6001 by lia.
  replace (IZR y / 100) with (IZR y / IZR 100) by reflexivity.
  rewrite (int_quotient_floor y 100) by lia.
  replace (IZR (y / 100) / 4) with (IZR (y / 100) / IZR 4) by reflexivity.
  rewrite (int_quotient_floor (y / 100) 4) by (try apply Z.div_pos; lia).
  rewrite (plus_IZR _ (2 - y / 100 + y / 100 / 4)). lra.
Qed.

Lemma fractional_hour_next_day (t : datetime) :
  fractional_hour (next_day t) = fractional_hour t.
Proof.
  unfold next_day.
  destruct (day t <? days_in_month (year t) (month t))%Z; [reflexivity |].
  destruct (month t <? 12)%Z; reflexivity.
Qed.

Lemma month_cases (m : Z) :
  (1 <= m <= 12)%Z ->
  m = 1%Z \/ m = 2%Z \/ m = 3%Z \/ m = 4%Z \/ m = 5%Z \/ m = 6%Z \/ m = 7%Z
  \/ m = 8%Z \/ m = 9%Z \/ m = 10%Z \/ m = 11%Z \/ m = 12%Z.
Proof. lia. Qed.

(** Tests on closed integers are evaluated; the others are split. *)
Ltac eval_tests :=
  repeat match goal with
         | |- context [Z.eqb ?a ?b] =>
             let v := eval vm_compute in (Z.eqb a b) in
             match v with
             | true => change (Z.eqb a b) with true
             | false => change (Z.eqb a b) with false
             end
         | |- context [Z.ltb ?a ?b] =>
             let v := eval vm_compute in (Z.ltb a b) in
             match v with
             | true => change (Z.ltb a b) with true
             | false => change (Z.ltb a b) with false
             end
         | H : context [Z.eqb ?a ?b] |- _ =>
             let v := eval vm_compute in (Z.eqb a b) in
             match v with
             | true => change (Z.eqb a b) with true in H
             | false => change (Z.eqb a b) with false in H
             end
         end;
  cbn [andb orb negb] in *.

Ltac eval_month_terms :=
  repeat match goal with
         | |- context [(306001 * ?k / 10000)%Z] =>
             let v := eval vm_compute in (306001 * k / 10000)%Z in
             change (306001 * k / 10000)%Z with v
         end.

Lemma div_step_100 (y : Z) :
  (y / 100 - (y - 1) / 100 = if (y mod 100 =? 0) then 1 else 0)%Z.
Proof. destruct (Z.eqb_spec (y mod 100) 0); Z.div_mod_to_equations; lia. Qed.

Lemma div_step_400 (y : Z) :
  (y / 100 / 4 - (y - 1) / 100 / 4 = if (y mod 400 =? 0) then 1 else 0)%Z.
Proof.
  rewrite !Z.div_div by lia. change (100 * 4)%Z with 400%Z.
  destruct (Z.eqb_spec (y mod 400) 0); Z.div_mod_to_equations; lia.
Qed.

Lemma year_step (y : Z) :
  (1461 * (y + 4716) / 4 - 1461 * (y - 1 + 4716) / 4
   = if (y mod 4 =? 0) then 366 else 365)%Z.
Proof. destruct (Z.eqb_spec (y mod 4) 0); Z.div_mod_to_equations; lia. Qed.

Lemma day_number_next_day (t : datetime) :
  (1 <= year t)%Z -> (1 <= month t <= 12)%Z ->
  (1 <= day t <= days_in_month (year t) (month t))%Z ->
  day_number (next_day t) = (day_number t + 1)%Z.
Proof.
  destruct t as [y m d h mi s f]. cbn [year month day]. intros Hy Hm Hd.
  unfold next_day. cbn [year month day].
  destruct (Z.ltb_spec d (days_in_month y m)) as [Hlt | Hge];
    [| destruct (Z.ltb_spec m 12) as [Hm12 | Hm12]];
    unfold with_date, day_number, adjusted; cbn [year month day].
  - destruct ((m =? 1)%Z || (m =? 2)%Z); lia.
  - unfold days_in_month, is_leap in Hd, Hge.
    destruct (month_cases m Hm)
      as [-> | [-> | [-> | [-> | [-> | [-> | [-> | [-> | [-> | [-> | [-> | ->]]]]]]]]]]];
      try lia; eval_tests; cbv beta iota; eval_month_terms.
    all: try lia.
    pose proof (div_step_100 y) as H100. pose proof (div_step_400 y) as H400.
    pose proof (year_step y) as H4.
    revert Hd Hge H100 H400 H4.
    destruct (Z.eqb_spec (y mod 4) 0), (Z.eqb_spec (y mod 100) 0), (Z.eqb_spec (y mod 400) 0);
      cbn [andb orb negb]; intros Hd Hge H100 H400 H4; try lia.
    all: Z.div_mod_to_equations; lia.
  - assert (m = 12%Z) as -> by lia.
    unfold days_in_month in Hd, Hge. eval_tests. cbv beta iota. eval_month_terms.
    replace (y + 1 - 1)%Z with y by lia. lia.
Qed.

Lemma next_day_year_month (t : datetime) :
  (1 <= year t)%Z -> (1 <= month t <= 12)%Z ->
  (1 <= year (next_day t))%Z /\ (1 <= month (next_day t))%Z.
Proof.
  intros Hy Hm. unfold next_day, with_date.
  destruct (day t <? days_in_month (year t) (month t))%Z; cbn [year month]; [lia |].
  destruct (month t <? 12)%Z; cbn [year month]; lia.
Qed.

Lemma valid_date (t : datetime) :
  valid t = true ->
  (1 <= year t /\ 1 <= month t <= 12
   /\ 1 <= day t <= days_in_month (year t) (month t))%Z.
Proof.
  unfold valid. rewrite !andb_true_iff, !Z.leb_le. lia.
Qed.

(** X1. The Julian day the function computes is the astronomical one: it is
    2451545 at the J2000 epoch (2000-01-01 12:00:00) and it grows by exactly
    one from any calendar day to the next at the same time of day, across
    month ends, year ends and leap days. *)
Theorem julian_day_next_day (t : datetime) :
  valid t = true ->
  JD_of (next_day t) = JD_of t + 1
  /\ JD_of (mk_datetime 2000 1 1 12 0 0 0) = 2451545.
Proof.
  intros Hv. destruct (valid_date t Hv) as (Hy & Hm & Hd). split.
  - destruct (next_day_year_month t Hy Hm) as [Hy' Hm'].
    rewrite (JD_of_day_number _ Hy' Hm'), (JD_of_day_number t Hy) by lia.
    rewrite (day_number_next_day t Hy Hm Hd), fractional_hour_next_day, plus_IZR.
    lra.
  - rewrite JD_of_day_number by (cbn [year month]; lia).
    change (day_number (mk_datetime 2000 1 1 12 0 0 0)) with 2453069%Z.
    unfold fractional_hour. cbn [hour minute second microsecond]. lra.
Qed.

Lemma julian_day_next_day_witness :
  valid (mk_datetime 2012 2 28 16 0 0 0) = true
  /\ JD_of (mk_datetime 2012 2 29 16 0 0 0) = JD_of (mk_datetime 2012 2 28 16 0 0 0) + 1.
Proof.
  split.
  - reflexivity.
  - exact (proj1 (julian_day_next_day (mk_datetime 2012 2 28 16 0 0 0) eq_refl)).
Defined.

(** X2. For every instant the constructor of [datetime] admits, the float
    truncations of lines 100-103 are exact integer floor divisions: the
    Julian day is the integer 1461(y+4716)/4 + 306001(m+1)/10000 + day
    + 2 - y/100 + (y/100)/4 minus 1524.5 plus the elapsed fraction of the
    day, and that fraction is at least 0 and less than 1. *)
Theorem julian_day_integer_part (t : datetime) :
  valid t = true ->
  JD_of t = IZR (day_number t) - 1524.5 + fractional_hour t / 24
  /\ 0 <= fractional_hour t / 24 < 1.
Proof.
  intros Hv. destruct (valid_date t Hv) as (Hy & Hm & Hd).
  pose proof (valid_ranges t Hv) as (_ & _ & _ & HH & HM & HS & Hf).
  split.
  - rewrite (JD_of_day_number t Hy) by lia. lra.
  - unfold fractional_hour.
    destruct HH as [HH1 HH2], HM as [HM1 HM2], HS as [HS1 HS2], Hf as [Hf1 Hf2].
    apply IZR_le in HH1, HH2, HM1, HM2, HS1, HS2, Hf1, Hf2.
    lra.
Qed.

Lemma julian_day_integer_part_witness :
  valid (mk_datetime 2013 7 12 16 0 0 0) = true
  /\ JD_of (mk_datetime 2013 7 12 16 0 0 0)
     = IZR (day_number (mk_datetime 2013 7 12 16 0 0 0)) - 1524.5
       + fractional_hour (mk_datetime 2013 7 12 16 0 0 0) / 24.
Proof.
  split.
  - reflexivity.
  - exact (proj1 (julian_day_integer_part (mk_datetime 2013 7 12 16 0 0 0) eq_refl)).
Defined.

Lemma distance_tight_range (JD : R) :
  0.98329 <= distance_of_julian_day JD <= 1.01671.
Proof.
  unfold distance_of_julian_day.
  set (g := radians _). rewrite (cos_2a_cos g).
  pose proof (COS_bound g) as Hg. nra.
Qed.

(** X3. Whatever timestamp it is given, a distance the function returns
    lies between 0.98329 and 1.01671 astronomical units (the values of the
    formula at cos g = 1 and cos g = -1). *)
Theorem EarthSunDistance_range (date : option string) (d : R) :
  EarthSunDistance date = Ok d -> 0.98329 <= d <= 1.01671.
Proof.
  unfold EarthSunDistance. destruct (strptime date) as [t | e]; [| discriminate].
  cbn [rbind]. destruct (adjusted t) as [m y]. intros H. injection H as <-.
  apply distance_tight_range.
Qed.

Lemma EarthSunDistance_range_witness :
  0.98329
  <= distance_of_julian_day (julian_day 7 2013 (mk_datetime 2013 7 12 16 0 0 0))
  <= 1.01671.
Proof.
  exact (EarthSunDistance_range (Some "2013-07-12T16:00:00.000000Z"%string) _ eq_refl).
Defined.

(** ** Outcomes of [ExtractVariablesFromMetadata] *)

Lemma try_except_ok (body : result (list pyval)) (vars : list pyval) :
  body = Ok vars ->
  try_except (lift body) (bind (emit (message could_not_find [])) (fun _ => sys_exit 1))
  = ([], Ok vars).
Proof. intros ->. reflexivity. Qed.

Lemma extract_body_complete
    (root : element) (band : string) (a el esd eSun efb : R) :
  field_value root ("IMD/" +:+ band +:+ "/ABSCALFACTOR") = Ok a ->
  field_value root ("IMD/" +:+ band +:+ "/EFFECTIVEBANDWIDTH") = Ok efb ->
  field_value root "IMD/IMAGE/MEANSUNEL" = Ok el ->
  (x <- find_text root "IMD/MAP_PROJECTED_PRODUCT/EARLIESTACQTIME" ;;
   EarthSunDistance x)%py = Ok esd ->
  SSI !! band = Some eSun ->
  extract_body root band
  = Ok [VFloat a; VFloat (90 - el); VFloat esd; VFloat eSun; VFloat efb].
Proof.
  unfold field_value, extract_body, subscript.
  destruct (find_text root ("IMD/" +:+ band +:+ "/ABSCALFACTOR")) as [x1 |]; [| discriminate].
  destruct (find_text root ("IMD/" +:+ band +:+ "/EFFECTIVEBANDWIDTH")) as [x2 |]; [| discriminate].
  destruct (find_text root "IMD/IMAGE/MEANSUNEL") as [x3 |]; [| discriminate].
  destruct (find_text root "IMD/MAP_PROJECTED_PRODUCT/EARLIESTACQTIME") as [x4 |]; [| discriminate].
  cbn [rbind]. intros -> -> -> -> ->. reflexivity.
Qed.

(** X4. When the file parses, the four fields hold numbers and a timestamp
    of the format, and the band code has an irradiance, the extraction
    returns, without any message, the list
    [absCal, 90 - elevation, distance, irradiance, bandwidth] in that
    order. *)
Theorem extraction_succeeds
    (fs : filesystem) (path band : string) (root : element)
    (a el esd eSun efb : R) :
  fs path = Some (Document root) ->
  field_value root ("IMD/" +:+ band +:+ "/ABSCALFACTOR") = Ok a ->
  field_value root ("IMD/" +:+ band +:+ "/EFFECTIVEBANDWIDTH") = Ok efb ->
  field_value root "IMD/IMAGE/MEANSUNEL" = Ok el ->
  (x <- find_text root "IMD/MAP_PROJECTED_PRODUCT/EARLIESTACQTIME" ;;
   EarthSunDistance x)%py = Ok esd ->
  SSI !! band = Some eSun ->
  ExtractVariablesFromMetadata fs path band
  = ([], Ok [VFloat a; VFloat (90 - el); VFloat esd; VFloat eSun; VFloat efb]).
Proof.
  intros Hfs Ha Hefb Hel Hesd HeSun.
  rewrite (ExtractVariablesFromMetadata_document fs path band root Hfs).
  apply try_except_ok.
  apply extract_body_complete; assumption.
Qed.

Lemma extraction_succeeds_witness :
  ExtractVariablesFromMetadata (fun _ => Some (Document example_metadata))
                               "meta.xml" "BAND_R"
  = ([], Ok [VFloat (9295654 / 1000000000); VFloat (90 - 600 / 10);
             VFloat (distance_of_julian_day
                       (julian_day 7 2013 (mk_datetime 2013 7 12 16 0 0 0)));
             VFloat 1559.4555; VFloat (5850000 / 100000000)]).
Proof.
  exact (extraction_succeeds (fun _ => Some (Document example_metadata))
           "meta.xml" "BAND_R" example_metadata _ _ _ _ _
           eq_refl eq_refl eq_refl eq_refl eq_refl eq_refl).
Defined.

(** X5. Once the file has been parsed, the extraction has only two
    outcomes: it returns a list of exactly five floats and emits nothing, or
    it emits the one diagnostic and exits with code 1.  No exception of the
    body (AttributeError, TypeError, ValueError, KeyError) escapes, and no
    request other than that message is sent to GRASS. *)
Theorem extraction_returns_or_exits
    (fs : filesystem) (path band : string) (root : element) :
  fs path = Some (Document root) ->
  (exists a z esd eSun efb : R,
      ExtractVariablesFromMetadata fs path band
      = ([], Ok [VFloat a; VFloat z; VFloat esd; VFloat eSun; VFloat efb]))
  \/ ExtractVariablesFromMetadata fs path band
     = ([message could_not_find []], Raise (SystemExit 1)).
Proof.
  intros Hfs.
  rewrite (ExtractVariablesFromMetadata_document fs path band root Hfs).
  destruct (extract_body root band) as [vars | e] eqn:Hbody.
  - left.
    destruct (extract_body_ok root band vars Hbody)
      as (a & el & esd & eSun & efb & _ & _ & _ & _ & _ & ->).
    exists a, (90 - el), esd, eSun, efb. reflexivity.
  - right. reflexivity.
Qed.

Lemma extraction_returns_or_exits_witness :
  (exists a z esd eSun efb : R,
      ExtractVariablesFromMetadata (fun _ => Some (Document (Element "isd" None [])))
                                   "meta.xml" "BAND_R"
      = ([], Ok [VFloat a; VFloat z; VFloat esd; VFloat eSun; VFloat efb]))
  \/ ExtractVariablesFromMetadata (fun _ => Some (Document (Element "isd" None [])))
                                  "meta.xml" "BAND_R"
     = ([message could_not_find []], Raise (SystemExit 1)).
Proof.
  exact (extraction_returns_or_exits (fun _ => Some (Document (Element "isd" None [])))
           "meta.xml" "BAND_R" (Element "isd" None []) eq_refl).
Defined.

(** X6. A metadata path that cannot be opened makes the extraction raise
    IOError to its caller: [open] is outside the [try], so there is no
    diagnostic and no exit code of the script's own, and nothing sequenced
    after the extraction runs. *)
Theorem missing_file_raises_IOError
    (fs : filesystem) (path band : string) :
  fs path = None ->
  ExtractVariablesFromMetadata fs path band = ([], Raise IOError)
  /\ (forall next : list pyval -> M unit,
        bind (ExtractVariablesFromMetadata fs path band) next = ([], Raise IOError)).
Proof.
  intros H.
  assert (Hrun : ExtractVariablesFromMetadata fs path band = ([], Raise IOError)).
  { unfold ExtractVariablesFromMetadata. rewrite H. reflexivity. }
  split; [exact Hrun |].
  intros next. apply bind_raise. exact Hrun.
Qed.

Lemma missing_file_raises_IOError_witness :
  ExtractVariablesFromMetadata (fun _ => None) "meta.xml" "BAND_R"
  = ([], Raise IOError).
Proof.
  exact (proj1 (missing_file_raises_IOError (fun _ => None) "meta.xml" "BAND_R" eq_refl)).
Defined.

Lemma extract_body_unknown_band (root : element) (band : string) :
  SSI !! band = None -> exists e : exn, extract_body root band = Raise e.
Proof.
  intros H. unfold extract_body, subscript. rewrite H. cbn [of_option].
  repeat (first [ eexists; reflexivity | step_body ]).
Qed.

(** X7. A band code that is not one of the nine keys of the irradiance
    table ends the extraction in the handled exit, whatever the document
    holds: the KeyError of [SSI[band]] is caught like the lookup errors. *)
Theorem unknown_band_exits
    (fs : filesystem) (path band : string) (root : element) :
  fs path = Some (Document root) ->
  SSI !! band = None ->
  ExtractVariablesFromMetadata fs path band
  = ([message could_not_find []], Raise (SystemExit 1)).
Proof.
  intros Hfs Hband.
  destruct (extract_body_unknown_band root band Hband) as [e He].
  rewrite (ExtractVariablesFromMetadata_document fs path band root Hfs).
  apply (try_except_raise _ e He).
Qed.

Lemma unknown_band_exits_witness :
  ExtractVariablesFromMetadata (fun _ => Some (Document example_metadata))
                               "meta.xml" "BAND_X"
  = ([message could_not_find []], Raise (SystemExit 1)).
Proof.
  exact (unknown_band_exits (fun _ => Some (Document example_metadata))
           "meta.xml" "BAND_X" example_metadata eq_refl eq_refl).
Defined.

Lemma extract_body_bad_time (root : element) (band : string) (e : exn) :
  (x <- find_text root "IMD/MAP_PROJECTED_PRODUCT/EARLIESTACQTIME" ;;
   EarthSunDistance x)%py = Raise e ->
  exists e' : exn, extract_body root band = Raise e'.
Proof.
  intros H. unfold extract_body.
  destruct (find_text root ("IMD/" +:+ band +:+ "/ABSCALFACTOR")); [| eexists; reflexivity].
  destruct (find_text root ("IMD/" +:+ band +:+ "/EFFECTIVEBANDWIDTH")); [| eexists; reflexivity].
  destruct (find_text root "IMD/IMAGE/MEANSUNEL"); [| eexists; reflexivity].
  cbn [rbind] in *.
  destruct (find_text root "IMD/MAP_PROJECTED_PRODUCT/EARLIESTACQTIME");
    cbn [rbind] in *; [| eexists; reflexivity].
  rewrite H. eexists. reflexivity.
Qed.

(** X8. An acquisition time that is missing or is not a timestamp of the
    format (whatever makes [EarthSunDistance] raise) ends the extraction in
    the same handled exit: the error of the date conversion does not reach
    the caller. *)
Theorem bad_acquisition_time_exits
    (fs : filesystem) (path band : string) (root : element) (e : exn) :
  fs path = Some (Document root) ->
  (x <- find_text root "IMD/MAP_PROJECTED_PRODUCT/EARLIESTACQTIME" ;;
   EarthSunDistance x)%py = Raise e ->
  ExtractVariablesFromMetadata fs path band
  = ([message could_not_find []], Raise (SystemExit 1)).
Proof.
  intros Hfs Htime.
  destruct (extract_body_bad_time root band e Htime) as [e' He'].
  rewrite (ExtractVariablesFromMetadata_document fs path band root Hfs).
  apply (try_except_raise _ e' He').
Qed.

Lemma bad_acquisition_time_exits_witness :
  ExtractVariablesFromMetadata
    (fun _ => Some (Document example_metadata_bad_time)) "meta.xml" "BAND_R"
  = ([message could_not_find []], Raise (SystemExit 1)).
Proof.
  exact (bad_acquisition_time_exits
           (fun _ => Some (Document example_metadata_bad_time))
           "meta.xml" "BAND_R" example_metadata_bad_time ValueError eq_refl eq_refl).
Defined.

(** ** Runs of [CalculateTOAR] *)

(** X9. Given fewer than six items, the function raises IndexError while
    unpacking them, before the temporary region is requested: nothing is
    sent to GRASS. *)
Theorem CalculateTOAR_short_list
    (rastItems : list pyval) (output : string) (radiance : bool) :
  (length rastItems < 6)%nat ->
  CalculateTOAR rastItems output radiance = ([], Raise IndexError).
Proof.
  intros H.
  do 6 (destruct rastItems as [| ? rastItems]; [reflexivity |]).
  cbn [length] in H. lia.
Qed.

Lemma CalculateTOAR_short_list_witness :
  CalculateTOAR [VStr "wv2"; VFloat 0.01; VFloat 30] "toa.5" false
  = ([], Raise IndexError).
Proof.
  apply CalculateTOAR_short_list. cbn [length]. lia.
Defined.

Lemma CalculateTOAR_on_succeeding
    (rastItems : list pyval) (output : string) (radiance : bool) :
  CalculateTOAR_on (fun _ => Ok tt) rastItems output radiance
  = CalculateTOAR rastItems output radiance.
Proof. reflexivity. Qed.

Lemma CalculateTOAR_on_six (g : engine)
    (raster absCal theta esd eSun efb : pyval) (rest : list pyval)
    (output : string) (radiance : bool) :
  CalculateTOAR_on g (raster :: absCal :: theta :: esd :: eSun :: efb :: rest)
                   output radiance
  = perform g
      [use_temp_region; run_command "g.region" [("rast", raster)];
       message (if radiance then "Calculating Top of Atmosphere Radiance for {}"
                else "Calculating Top of Atmosphere Reflectance for %s") [raster];
       mapcalc (if radiance then calc_radiance else calc_reflectance)
               (if radiance
                then [("output", VStr output); ("absCal", absCal);
                      ("input_rast", raster); ("efb", efb)]
                else [("output", VStr output); ("absCal", absCal);
                      ("input_rast", raster); ("esd", esd); ("pi", VFloat PI);
                      ("eSun", eSun); ("theta", theta); ("efb", efb)])].
Proof.
  unfold CalculateTOAR_on, item. cbn [nth_error of_option]. rewrite !bind_ret.
  unfold request, bind. cbn [perform].
  destruct (g use_temp_region) as [[] |]; [| reflexivity].
  destruct (g (run_command "g.region" [("rast", raster)])) as [[] |]; [| reflexivity].
  destruct radiance.
  - destruct (g (message _ _)) as [[] |]; [| reflexivity].
    destruct (g (mapcalc _ _)) as [[] |]; reflexivity.
  - destruct (g (message _ _)) as [[] |]; [| reflexivity].
    destruct (g (mapcalc _ _)) as [[] |]; reflexivity.
Qed.

(** X10. Given six items or more, of whatever kind, and whatever GRASS
    answers, the function makes its requests in this order: the temporary
    region, [g.region] on the first item, one message, one raster
    transform; it stops at the first request that fails, with the error of
    that request, and returns normally when none does.  Items after the
    sixth are ignored; the transform reads the raster the region was set to
    and targets [output]; and every placeholder of its expression has a
    keyword argument, so the substitution into the template cannot fail. *)
Theorem CalculateTOAR_run (g : engine)
    (raster absCal theta esd eSun efb : pyval) (rest : list pyval)
    (output : string) (radiance : bool) :
  exists (text : string) (calc : statement) (kw : kwargs),
    CalculateTOAR_on g (raster :: absCal :: theta :: esd :: eSun :: efb :: rest)
                     output radiance
    = perform g [use_temp_region; run_command "g.region" [("rast", raster)];
                 message text [raster]; mapcalc calc kw]
    /\ calc = (if radiance then calc_radiance else calc_reflectance)
    /\ keyword "input_rast" kw = Some raster
    /\ keyword (target calc) kw = Some (VStr output)
    /\ all_bound calc kw = true.
Proof.
  do 3 eexists. split; [apply CalculateTOAR_on_six |].
  destruct radiance; repeat split; reflexivity.
Qed.

(** ** The two transfer functions *)

(** X11. For every record and cell, the reflectance is the radiance of the
    same record and cell multiplied by esd^2 pi / (eSun cos theta): the
    reflectance expression contains the radiance expression as its first
    factor. *)
Theorem reflectance_is_scaled_radiance
    (raster output : string) (absCal theta esd eSun efb : R) (cell : string -> R) :
  exists L rho : R,
    pixels (fst (CalculateTOAR [VStr raster; VFloat absCal; VFloat theta; VFloat esd;
                                VFloat eSun; VFloat efb] output true)) cell
    = [Some (output, L)]
    /\ pixels (fst (CalculateTOAR [VStr raster; VFloat absCal; VFloat theta;
                                   VFloat esd; VFloat eSun; VFloat efb]
                                  output false)) cell
       = [Some (output, rho)]
    /\ rho = L * (esd ^ 2 * PI / (eSun * cos (radians theta))).
Proof.
  eexists. eexists.
  split; [apply CalculateTOAR_radiance |].
  split; [apply CalculateTOAR_reflectance |].
  unfold Rdiv. ring.
Qed.

(** X12. Both transforms are linear in the count: multiplying the value of
    the input raster at a cell by k multiplies the radiance and the
    reflectance at that cell by k (so a count of 0 gives 0). *)
Theorem transforms_linear_in_count
    (raster output : string) (absCal theta esd eSun efb k : R)
    (radiance : bool) (cell : string -> R) :
  exists v : R,
    pixels (fst (CalculateTOAR [VStr raster; VFloat absCal; VFloat theta; VFloat esd;
                                VFloat eSun; VFloat efb] output radiance)) cell
    = [Some (output, v)]
    /\ pixels (fst (CalculateTOAR [VStr raster; VFloat absCal; VFloat theta;
                                   VFloat esd; VFloat eSun; VFloat efb]
                                  output radiance)) (fun m => k * cell m)
       = [Some (output, k * v)].
Proof.
  destruct radiance; eexists.
  - split; [apply CalculateTOAR_radiance |].
    rewrite CalculateTOAR_radiance. do 3 f_equal. unfold Rdiv. ring.
  - split; [apply CalculateTOAR_reflectance |].
    rewrite CalculateTOAR_reflectance. do 3 f_equal. unfold Rdiv. ring.
Qed.

Lemma cos_radians_pos (theta : R) :
  0 <= theta < 90 -> 0 < cos (radians theta).
Proof.
  intros H. pose proof PI_RGT_0 as Hpi. unfold radians.
  apply cos_gt_0; nra.
Qed.

(** X13. For a positive calibration factor, bandwidth, distance and
    irradiance, a positive count and a solar zenith angle from 0 up to but
    not including 90 degrees (the sun above the horizon), the reflectance is
    positive. *)
Theorem reflectance_positive
    (raster output : string) (absCal theta esd eSun efb : R) (cell : string -> R) :
  0 < absCal -> 0 < efb -> 0 < esd -> 0 < eSun -> 0 < cell raster ->
  0 <= theta < 90 ->
  exists rho : R,
    pixels (fst (CalculateTOAR [VStr raster; VFloat absCal; VFloat theta; VFloat esd;
                                VFloat eSun; VFloat efb] output false)) cell
    = [Some (output, rho)]
    /\ 0 < rho.
Proof.
  intros Ha Hefb Hesd HeSun Hdn Htheta.
  eexists. split; [apply CalculateTOAR_reflectance |].
  pose proof (cos_radians_pos theta Htheta) as Hcos.
  pose proof PI_RGT_0 as Hpi.
  apply Rdiv_lt_0_compat.
  - apply Rmult_lt_0_compat; [apply Rmult_lt_0_compat | exact Hpi].
    + apply Rdiv_lt_0_compat; [apply Rmult_lt_0_compat |]; assumption.
    + apply pow_lt. assumption.
  - apply Rmult_lt_0_compat; assumption.
Qed.

Lemma reflectance_positive_witness :
  exists rho : R,
    pixels (fst (CalculateTOAR [VStr "wv2"; VFloat 0.01; VFloat 30; VFloat 1;
                                VFloat 1559.4555; VFloat 50] "toa.5" false))
           (fun _ => 1000)
    = [Some ("toa.5"%string, rho)]
    /\ 0 < rho.
Proof.
  apply (reflectance_positive "wv2" "toa.5" 0.01 30 1 1559.4555 50 (fun _ => 1000));
    lra.
Defined.

(** ** The band tables and the output name *)

Ltac table_cases H :=
  repeat (apply lookup_insert_Some in H; destruct H as [[<- <-] | [_ H]]);
  [.. | rewrite lookup_empty in H; discriminate H].

Lemma band_tables_same_keys (name : string) :
  is_Some (band_lookup !! name) <-> is_Some (band_num !! name).
Proof.
  split; intros [code H].
  - unfold band_lookup in H. table_cases H; eexists; reflexivity.
  - unfold band_num in H. table_cases H; eexists; reflexivity.
Qed.

(** X14. The three tables agree: [band_lookup] and [band_num] have the same
    nine keys, and every band code [band_lookup] yields is a key of the
    irradiance table, so a code obtained from a band name never makes
    [SSI[band]] fail. *)
Theorem band_tables_consistent (name : string) :
  (is_Some (band_lookup !! name) <-> is_Some (band_num !! name))
  /\ (forall code : string,
        band_lookup !! name = Some code -> is_Some (SSI !! code)).
Proof.
  split; [apply band_tables_same_keys |].
  intros code H. unfold band_lookup in H.
  table_cases H; eexists; reflexivity.
Qed.

Lemma append_inj_r (p a b : string) : p +:+ a = p +:+ b -> a = b.
Proof.
  induction p as [| c p IH]; [rewrite !append_nil; trivial |].
  rewrite !append_cons. intros H. injection H as H. apply IH. exact H.
Qed.

Lemma table_injective (table : gmap string string) (b1 b2 c : string) :
  table = band_lookup \/ table = band_num ->
  table !! b1 = Some c -> table !! b2 = Some c -> b1 = b2.
Proof.
  intros [-> | ->] H1 H2.
  - unfold band_lookup in H1. table_cases H1;
      unfold band_lookup in H2;
      repeat (apply lookup_insert_Some in H2; destruct H2 as [[<- Hc] | [_ H2]];
              [first [reflexivity | discriminate Hc] |]);
      rewrite lookup_empty in H2; discriminate H2.
  - unfold band_num in H1. table_cases H1;
      unfold band_num in H2;
      repeat (apply lookup_insert_Some in H2; destruct H2 as [[<- Hc] | [_ H2]];
              [first [reflexivity | discriminate Hc] |]);
      rewrite lookup_empty in H2; discriminate H2.
Qed.

Lemma output_name_inv (flag : bool) (prefix band o : string) :
  output_name flag prefix band = Ok o ->
  exists code : string,
    (if flag then band_lookup else band_num) !! band = Some code
    /\ o = prefix +:+ "." +:+ code.
Proof.
  unfold output_name, lookup_table.
  change (main_locals !! "band_lookup"%string) with (Some band_lookup).
  change (main_locals !! "band_num"%string) with (Some band_num).
  unfold subscript.
  destruct flag.
  - destruct (band_lookup !! band) as [code |]; [| discriminate].
    cbn [of_option rbind]. intros H. injection H as <-. exists code. split; reflexivity.
  - destruct (band_num !! band) as [code |]; [| discriminate].
    cbn [of_option rbind]. intros H. injection H as <-. exists code. split; reflexivity.
Qed.

(** X15. For a given prefix and naming mode, two bands never get the same
    output name: the outputs of different bands cannot overwrite one
    another. *)
Theorem output_name_injective (flag : bool) (prefix b1 b2 o : string) :
  output_name flag prefix b1 = Ok o ->
  output_name flag prefix b2 = Ok o ->
  b1 = b2.
Proof.
  intros H1 H2.
  destruct (output_name_inv flag prefix b1 o H1) as (c1 & Hc1 & ->).
  destruct (output_name_inv flag prefix b2 _ H2) as (c2 & Hc2 & Heq).
  apply append_inj_r in Heq. change ("." +:+ c1) with (String "."%char c1) in Heq.
  change ("." +:+ c2) with (String "."%char c2) in Heq.
  injection Heq as ->.
  apply (table_injective (if flag then band_lookup else band_num) b1 b2 c2);
    [destruct flag; auto | assumption | assumption].
Qed.

Lemma output_name_injective_witness :
  output_name false "toa" "Red" = Ok "toa.5"%string /\ "Red"%string = "Red"%string.
Proof.
  split; [reflexivity |].
  exact (output_name_injective false "toa" "Red" "Red" "toa.5" eq_refl eq_refl).
Defined.

(** X16. A band outside the nine names makes the naming fail with
    KeyError for that band in both modes, and a band among them is named in
    both modes: the name of the output never depends on which table was
    consulted for the band being known. *)
Theorem output_name_unknown_band (flag : bool) (prefix band : string) :
  band_lookup !! band = None ->
  output_name flag prefix band = Raise (KeyError band)
  /\ (forall known : string,
        is_Some (band_lookup !! known) ->
        exists o : string, output_name flag prefix known = Ok o).
Proof.
  intros Hnone. split.
  - assert (Hnum : band_num !! band = None).
    { destruct (band_num !! band) as [c |] eqn:Hc; [| reflexivity].
      assert (Hs : is_Some (band_lookup !! band))
        by (apply band_tables_same_keys; rewrite Hc; eexists; reflexivity).
      rewrite Hnone in Hs. destruct Hs as [x Hx]. discriminate Hx. }
    unfold output_name, lookup_table.
    change (main_locals !! "band_lookup"%string) with (Some band_lookup).
    change (main_locals !! "band_num"%string) with (Some band_num).
    unfold subscript. rewrite Hnone, Hnum. destruct flag; reflexivity.
  - intros known Hk.
    assert (Hk' : is_Some (band_num !! known)) by (apply band_tables_same_keys; exact Hk).
    destruct Hk as [c Hc], Hk' as [c' Hc'].
    unfold output_name, lookup_table.
    change (main_locals !! "band_lookup"%string) with (Some band_lookup).
    change (main_locals !! "band_num"%string) with (Some band_num).
    unfold subscript. rewrite Hc, Hc'. destruct flag; eexists; reflexivity.
Qed.

Lemma output_name_unknown_band_witness :
  output_name true "toa" "Purple" = Raise (KeyError "Purple").
Proof.
  exact (proj1 (output_name_unknown_band true "toa" "Purple" eq_refl)).
Defined.

(** ** Extraction followed by the transform *)

Lemma extraction_ok_inv
    (fs : filesystem) (path band : string) (t : list event) (vars : list pyval) :
  ExtractVariablesFromMetadata fs path band = (t, Ok vars) ->
  t = []
  /\ exists a z esd eSun efb : R,
       vars = [VFloat a; VFloat z; VFloat esd; VFloat eSun; VFloat efb].
Proof.
  destruct (fs path) as [[| root] |] eqn:Hfs.
  - unfold ExtractVariablesFromMetadata. rewrite Hfs. discriminate.
  - rewrite (ExtractVariablesFromMetadata_document fs path band root Hfs).
    destruct (extract_body root band) as [v | e] eqn:Hbody; [| discriminate].
    cbn. intros H. injection H as <- <-.
    destruct (extract_body_ok root band v Hbody)
      as (a & el & esd & eSun & efb & _ & _ & _ & _ & _ & ->).
    split; [reflexivity |]. exists a, (90 - el), esd, eSun, efb. reflexivity.
  - unfold ExtractVariablesFromMetadata. rewrite Hfs. discriminate.
Qed.

(** X17. Whatever record the extraction returns, with the input map put
    in front as on line 202 it has the six items [CalculateTOAR] unpacks:
    whatever GRASS answers, the call raises no IndexError, it makes the
    four requests in order up to the first one that fails, the transform
    reads the input map, and the calibration factor and the bandwidth of
    its expression are floats of the record. *)
Theorem extraction_feeds_transform
    (fs : filesystem) (path band : string) (t : list event) (vars : list pyval)
    (input_map output : string) (radiance : bool) :
  ExtractVariablesFromMetadata fs path band = (t, Ok vars) ->
  exists (a z esd eSun efb : R) (text : string) (calc : statement) (kw : kwargs),
    vars = [VFloat a; VFloat z; VFloat esd; VFloat eSun; VFloat efb]
    /\ (forall g : engine,
          CalculateTOAR_on g ([VStr input_map] ++ vars) output radiance
          = perform g [use_temp_region;
                       run_command "g.region" [("rast", VStr input_map)];
                       message text [VStr input_map]; mapcalc calc kw])
    /\ keyword "input_rast" kw = Some (VStr input_map)
    /\ keyword "absCal" kw = Some (VFloat a)
    /\ keyword "efb" kw = Some (VFloat efb)
    /\ all_bound calc kw = true.
Proof.
  intros H.
  destruct (extraction_ok_inv fs path band t vars H)
    as (_ & a & z & esd & eSun & efb & ->).
  exists a, z, esd, eSun, efb. do 3 eexists.
  split; [reflexivity |].
  split; [intros g; apply CalculateTOAR_on_six |].
  destruct radiance; repeat split; reflexivity.
Qed.

Lemma extraction_feeds_transform_witness :
  exists (a z esd eSun efb : R) (text : string) (calc : statement) (kw : kwargs),
    [VFloat (9295654 / 1000000000); VFloat (90 - 600 / 10);
     VFloat (distance_of_julian_day
               (julian_day 7 2013 (mk_datetime 2013 7 12 16 0 0 0)));
     VFloat 1559.4555; VFloat (5850000 / 100000000)]
    = [VFloat a; VFloat z; VFloat esd; VFloat eSun; VFloat efb]
    /\ (forall g : engine,
          CalculateTOAR_on g
            ([VStr "wv2"] ++
             [VFloat (9295654 / 1000000000); VFloat (90 - 600 / 10);
              VFloat (distance_of_julian_day
                        (julian_day 7 2013 (mk_datetime 2013 7 12 16 0 0 0)));
              VFloat 1559.4555; VFloat (5850000 / 100000000)])
            "toa.5" false
          = perform g [use_temp_region;
                       run_command "g.region" [("rast", VStr "wv2")];
                       message text [VStr "wv2"]; mapcalc calc kw])
    /\ keyword "input_rast" kw = Some (VStr "wv2")
    /\ keyword "absCal" kw = Some (VFloat a)
    /\ keyword "efb" kw = Some (VFloat efb)
    /\ all_bound calc kw = true.
Proof.
  exact (extraction_feeds_transform
           (fun _ => Some (Document example_metadata)) "meta.xml" "BAND_R"
           [] _ "wv2" "toa.5" false eq_refl).
Defined.
